(** * The on-disk cache of the ECS Agent image

    A shallow embedding of [ecs-init/cache/cache.go] (package [cache]) and
    the properties of its download / verify / commit / retrieve workflow.

    Layout of the development:
    - [GoLib]: the pieces of the Go standard library that the package calls
      ([strings.TrimSpace], [filepath.Base], [fmt.Sprintf] with [%x] and
      [%d], [crypto/md5], the line splitting of [bufio.Reader.ReadString]);
    - the world the package runs in (disk, remote server, hashes, fault
      script, trace of the calls to the collaborators) and the state
      monad over it;
    - the two injected collaborators, [httpGetter] and [fileSystem], with
      their default implementations [CustomGetter] and [StandardFS];
    - package [config] as a record of parameters, and the functions of
      [cache.go] in Section [Cache];
    - [Run], the runs of [DownloadAgent] by the place where it returns,
      and the worlds of a concrete host, [Host];
    - the proofs.

    Go's [string] and [[]byte] are both sequences of 8-bit values; both are
    modelled by [string], so the conversion [string(body)] is the identity. *)

From stdpp Require Import gmap strings list fin_maps pretty.
From Stdlib Require Import ZArith Ascii String.

Open Scope string_scope.
Open Scope list_scope.
Open Scope Z_scope.

(* ===================================================================== *)
(** ** Go standard library *)
(* ===================================================================== *)

Module GoLib.

(** The numeric value of a byte. *)
Definition code (c : ascii) : Z := Z.of_N (N_of_ascii c).

Definition byte_of (z : Z) : ascii := ascii_of_N (Z.to_N (z mod 256)).

(** *** [unicode.IsSpace], read on the UTF-8 encoding

    [strings.TrimSpace] removes leading and trailing runes [r] with
    [unicode.IsSpace(r)]: the six ASCII characters tab, LF, VT, FF, CR and
    space, U+0085 and U+00A0 (two bytes in UTF-8), and U+1680,
    U+2000..U+200A, U+2028, U+2029, U+202F, U+205F and U+3000 (three
    bytes).  A byte sequence that is not a valid encoding decodes to
    [RuneError], which is not a space. *)
Definition isSpace1 (c : ascii) : bool :=
  let n := code c in
  ((9 <=? n) && (n <=? 13)) || (n =? 32).

Definition isSpace2 (c1 c2 : ascii) : bool :=
  (code c1 =? 0xC2) && ((code c2 =? 0x85) || (code c2 =? 0xA0)).

Definition isSpace3 (c1 c2 c3 : ascii) : bool :=
  let '(n1, n2, n3) := (code c1, code c2, code c3) in
  ((n1 =? 0xE1) && (n2 =? 0x9A) && (n3 =? 0x80))
  || ((n1 =? 0xE2) && (n2 =? 0x80)
        && (((0x80 <=? n3) && (n3 <=? 0x8A))
            || (n3 =? 0xA8) || (n3 =? 0xA9) || (n3 =? 0xAF)))
  || ((n1 =? 0xE2) && (n2 =? 0x81) && (n3 =? 0x9F))
  || ((n1 =? 0xE3) && (n2 =? 0x80) && (n3 =? 0x80)).

(** Drop the white-space runes at the head of [s].  With [back = true] the
    string is read backwards (it is the reversal of the text), so the
    bytes of a multi-byte rune arrive last byte first. *)
Fixpoint trimHead (back : bool) (s : string) : string :=
  match s with
  | String c1 s1 =>
      if isSpace1 c1 then trimHead back s1
      else
        match s1 with
        | String c2 s2 =>
            if (if back then isSpace2 c2 c1 else isSpace2 c1 c2)
            then trimHead back s2
            else
              match s2 with
              | String c3 s3 =>
                  if (if back then isSpace3 c3 c2 c1 else isSpace3 c1 c2 c3)
                  then trimHead back s3
                  else s
              | EmptyString => s
              end
        | EmptyString => s
        end
  | EmptyString => s
  end.

(** [strings.TrimSpace]: [TrimRightFunc(TrimLeftFunc(s, IsSpace), IsSpace)]. *)
Definition TrimSpace (s : string) : string :=
  String.rev (trimHead true (String.rev (trimHead false s))).

(** *** [path/filepath.Base] (Unix: the separator is the slash, there is
    no volume name) *)
Definition IsPathSeparator (c : ascii) : bool := Ascii.eqb c "/".

(** On the reversed path: skip the separators at its head
    ("strip trailing slashes"). *)
Fixpoint dropSeparators (r : string) : string :=
  match r with
  | String c r' => if IsPathSeparator c then dropSeparators r' else r
  | EmptyString => EmptyString
  end.

(** On the reversed path: the bytes before the first separator
    ("find the last element"). *)
Fixpoint lastElement (r : string) : string :=
  match r with
  | String c r' =>
      if IsPathSeparator c then EmptyString else String c (lastElement r')
  | EmptyString => EmptyString
  end.

Definition Base (path : string) : string :=
  if decide (path = "") then "."
  else
    let path := String.rev (lastElement (dropSeparators (String.rev path))) in
    if decide (path = "") then "/" else path.

(** *** [fmt.Sprintf]: the verbs [%x] on a byte slice and [%d] on an int *)
Definition hexDigit (n : Z) : ascii :=
  if n <? 10 then byte_of (48 + n) else byte_of (87 + n).

(** [%x]: two lower-case hexadecimal digits per byte, nothing between. *)
Fixpoint Sprintf_x (b : string) : string :=
  match b with
  | String c b' =>
      String (hexDigit (code c / 16))
        (String (hexDigit (code c mod 16)) (Sprintf_x b'))
  | EmptyString => EmptyString
  end.

(** [%d]: decimal, a minus sign on negative numbers. *)
Definition Sprintf_d (n : Z) : string := pretty n.

(** *** [bufio.Reader.ReadString]

    The bytes of [data] up to and including the first [delim], if there
    is one. *)
Fixpoint splitAfter (delim : ascii) (data : string) : option string :=
  match data with
  | String c data' =>
      if Ascii.eqb c delim then Some (String c EmptyString)
      else String c <$> splitAfter delim data'
  | EmptyString => None
  end.

(** *** [crypto/md5] (RFC 1321)

    The digest is a function of the bytes written to the hash so far, so
    the accumulator [hash.Hash] is modelled by those bytes and
    [Sum(nil)] by [md5sum] of them. *)
Definition add32 (a b : Z) : Z := (a + b) mod 2 ^ 32.

Definition not32 (a : Z) : Z := Z.lxor a 0xFFFFFFFF.

Definition rotl32 (x n : Z) : Z :=
  Z.lor (Z.shiftl x n mod 2 ^ 32) (Z.shiftr x (32 - n)).

Definition md5K : list Z :=
  [ 0xd76aa478; 0xe8c7b756; 0x242070db; 0xc1bdceee;
    0xf57c0faf; 0x4787c62a; 0xa8304613; 0xfd469501;
    0x698098d8; 0x8b44f7af; 0xffff5bb1; 0x895cd7be;
    0x6b901122; 0xfd987193; 0xa679438e; 0x49b40821;
    0xf61e2562; 0xc040b340; 0x265e5a51; 0xe9b6c7aa;
    0xd62f105d; 0x02441453; 0xd8a1e681; 0xe7d3fbc8;
    0x21e1cde6; 0xc33707d6; 0xf4d50d87; 0x455a14ed;
    0xa9e3e905; 0xfcefa3f8; 0x676f02d9; 0x8d2a4c8a;
    0xfffa3942; 0x8771f681; 0x6d9d6122; 0xfde5380c;
    0xa4beea44; 0x4bdecfa9; 0xf6bb4b60; 0xbebfbc70;
    0x289b7ec6; 0xeaa127fa; 0xd4ef3085; 0x04881d05;
    0xd9d4d039; 0xe6db99e5; 0x1fa27cf8; 0xc4ac5665;
    0xf4292244; 0x432aff97; 0xab9423a7; 0xfc93a039;
    0x655b59c3; 0x8f0ccc92; 0xffeff47d; 0x85845dd1;
    0x6fa87e4f; 0xfe2ce6e0; 0xa3014314; 0x4e0811a1;
    0xf7537e82; 0xbd3af235; 0x2ad7d2bb; 0xeb86d391 ].

Definition md5S : list Z :=
  [ 7; 12; 17; 22; 7; 12; 17; 22; 7; 12; 17; 22; 7; 12; 17; 22;
    5;  9; 14; 20; 5;  9; 14; 20; 5;  9; 14; 20; 5;  9; 14; 20;
    4; 11; 16; 23; 4; 11; 16; 23; 4; 11; 16; 23; 4; 11; 16; 23;
    6; 10; 15; 21; 6; 10; 15; 21; 6; 10; 15; 21; 6; 10; 15; 21 ].

Definition at_ (l : list Z) (i : Z) : Z := nth (Z.to_nat i) l 0.

Definition md5State : Type := Z * Z * Z * Z.

Definition md5Init : md5State :=
  (0x67452301, 0xefcdab89, 0x98badcfe, 0x10325476).

(** One of the 64 operations of a block; [M] holds its 16 words. *)
Definition md5Round (M : list Z) (st : md5State) (i : Z) : md5State :=
  let '(a, b, c, d) := st in
  let '(f, g) :=
    if i <? 16 then (Z.lor (Z.land b c) (Z.land (not32 b) d), i)
    else if i <? 32 then
      (Z.lor (Z.land d b) (Z.land (not32 d) c), (5 * i + 1) mod 16)
    else if i <? 48 then (Z.lxor (Z.lxor b c) d, (3 * i + 5) mod 16)
    else (Z.lxor c (Z.lor b (not32 d)), (7 * i) mod 16) in
  let f := add32 (add32 (add32 f a) (at_ md5K i)) (at_ M g) in
  (d, add32 b (rotl32 f (at_ md5S i)), b, c).

(** Little-endian words and bytes. *)
Fixpoint wordsLE (bytes : list Z) (n : nat) : list Z :=
  match n, bytes with
  | S n', b0 :: b1 :: b2 :: b3 :: rest =>
      (b0 + b1 * 2 ^ 8 + b2 * 2 ^ 16 + b3 * 2 ^ 24) :: wordsLE rest n'
  | _, _ => []
  end.

Definition bytesLE (n : nat) (x : Z) : list Z :=
  map (fun k => Z.shiftr x (8 * Z.of_nat k) mod 256) (seq 0 n).

Definition md5Block (st : md5State) (block : list Z) : md5State :=
  let M := wordsLE block 16 in
  let '(a, b, c, d) := st in
  let '(a', b', c', d') :=
    fold_left (md5Round M) (map Z.of_nat (seq 0 64)) st in
  (add32 a a', add32 b b', add32 c c', add32 d d').

Fixpoint md5Blocks (n : nat) (st : md5State) (bytes : list Z) : md5State :=
  match n with
  | O => st
  | S n' => md5Blocks n' (md5Block st (take 64 bytes)) (drop 64 bytes)
  end.

(** The message followed by the bit 1, zeros up to 56 modulo 64 bytes,
    and the length in bits on 64 bits. *)
Definition md5Pad (msg : list Z) : list Z :=
  let len := Z.of_nat (List.length msg) in
  msg ++ [0x80] ++ repeat 0 (Z.to_nat ((55 - len) mod 64))
      ++ bytesLE 8 ((8 * len) mod 2 ^ 64).

Definition bytes_of_string (s : string) : list Z :=
  map code (list_ascii_of_string s).

Definition string_of_bytes (l : list Z) : string :=
  string_of_list_ascii (map byte_of l).

Definition md5sum (data : string) : string :=
  let padded := md5Pad (bytes_of_string data) in
  let '(a, b, c, d) := md5Blocks (List.length padded / 64)%nat md5Init padded in
  string_of_bytes (bytesLE 4 a ++ bytesLE 4 b ++ bytesLE 4 c ++ bytesLE 4 d).

(** *** Used to state properties: [strings.IndexByte(s, c) >= 0], and
    [strings.ToUpper] on ASCII *)
Fixpoint hasByte (c : ascii) (s : string) : bool :=
  match s with
  | String c' s' => Ascii.eqb c' c || hasByte c s'
  | EmptyString => false
  end.

Definition toUpper (c : ascii) : ascii :=
  if (97 <=? code c) && (code c <=? 122) then byte_of (code c - 32) else c.

Fixpoint ToUpper (s : string) : string :=
  match s with
  | String c s' => String (toUpper c) (ToUpper s')
  | EmptyString => EmptyString
  end.

(** The digits of lower-case hexadecimal. *)
Definition isLowerHex (c : ascii) : bool :=
  ((48 <=? code c) && (code c <=? 57)) || ((97 <=? code c) && (code c <=? 102)).

Fixpoint allLowerHex (s : string) : bool :=
  match s with
  | String c s' => isLowerHex c && allLowerHex s'
  | EmptyString => true
  end.

(** The line feed, Go's ['\n']. *)
Definition LF : ascii := "010".

End GoLib.

Import GoLib.

(* ===================================================================== *)
(** ** The world around the package *)
(* ===================================================================== *)

(** Go's [error] values.  [Errorf] is an error built by this package with
    [fmt.Errorf]; the others reach it from a collaborator or from the
    standard library and are passed on as they are. *)
Inductive error :=
| Errorf (msg : string)                 (* fmt.Errorf(msg) *)
| TransportError (msg : string)         (* from the HTTP transport *)
| PathError (op path reason : string)   (* from the file system, as os.PathError *)
| EOF.                                  (* io.EOF *)

(** A function result [(T, error)] whose [T] is nil when the error is not. *)
Inductive result (A : Type) :=
| Ok (a : A)
| Err (e : error).
Arguments Ok {A} a.
Arguments Err {A} e.

(** A reference to a [hash.Hash] made by [md5.New()]. *)
Definition Hash := nat.

(** An [io.ReadCloser], as the transport and the file system hand them
    out: a stream that delivers [data] and then ends, at end of file or
    ([fail]) with a read error.  [name] says what it reads from, a URL or
    a path. *)
Record ReadCloser := {
  rcName : string;
  rcData : string;
  rcFail : option error
}.

(** An [io.Reader]: a stream, or the tee that [TeeReader] builds, which
    writes to the hash [w] what it reads from [src].  A [ReadCloser] is
    used as a [Reader] wherever Go converts implicitly. *)
Inductive Reader :=
| Plain (rc : ReadCloser)
| Tee (src : Reader) (w : Hash).

Coercion Plain : ReadCloser >-> Reader.

(** [*http.Response]; the transport gives a non-nil response with a
    non-nil body whenever it gives no error. *)
Record Response := { StatusCode : Z; Body : ReadCloser }.

(** [os.FileInfo] *)
Record FileInfo := { Size : Z }.

(** [*os.File], an open file known by its path. *)
Record File := { Name : string }.

(** What the environment does to a fallible call: let it through, or make
    it fail for [reason] (a transport error on a request, a path error on
    a file operation); a copy that fails has moved [moved] bytes by
    then. *)
Inductive Fault :=
| NoFault
| Fail (reason : string) (moved : nat).

(** The calls made to the collaborators, with what they answered. *)
Inductive Event :=
| EvGet (url : string) (res : result Response)
| EvStat (path : string) (res : result FileInfo)
| EvMkdirAll (path : string) (perm : Z) (err : option error)
| EvTempFile (dir prefix : string) (res : result File)
| EvCopy (dst data : string) (err : option error)
| EvRename (oldpath newpath : string) (err : option error)
| EvRemove (path : string) (err : option error)
| EvWriteFile (path data : string) (perm : Z) (err : option error)
| EvOpen (path : string) (res : result ReadCloser)
| EvClose (name : string).

Record World := {
  disk : gmap string string;       (* regular files: path to content *)
  dirs : gset string;              (* directories *)
  remote : gmap string Response;   (* what the server answers, by URL *)
  hashes : gmap Hash string;       (* bytes written to each hash so far *)
  nhash : Hash;                    (* the next hash reference *)
  tempDir : string;                (* os.TempDir() *)
  tempSeed : list string;          (* the random suffixes TempFile will draw *)
  script : list Fault;             (* one entry for each fallible call to come *)
  trace : list Event               (* the calls made so far, oldest first *)
}.

Definition withDisk (f : gmap string string → gmap string string) (w : World) :=
  {| disk := f (disk w); dirs := dirs w; remote := remote w;
     hashes := hashes w; nhash := nhash w; tempDir := tempDir w;
     tempSeed := tempSeed w; script := script w; trace := trace w |}.

Definition withDirs (f : gset string → gset string) (w : World) :=
  {| disk := disk w; dirs := f (dirs w); remote := remote w;
     hashes := hashes w; nhash := nhash w; tempDir := tempDir w;
     tempSeed := tempSeed w; script := script w; trace := trace w |}.

Definition withHashes (f : gmap Hash string → gmap Hash string) (n : Hash)
    (w : World) :=
  {| disk := disk w; dirs := dirs w; remote := remote w;
     hashes := f (hashes w); nhash := n; tempDir := tempDir w;
     tempSeed := tempSeed w; script := script w; trace := trace w |}.

Definition withTempSeed (l : list string) (w : World) :=
  {| disk := disk w; dirs := dirs w; remote := remote w;
     hashes := hashes w; nhash := nhash w; tempDir := tempDir w;
     tempSeed := l; script := script w; trace := trace w |}.

Definition withScript (l : list Fault) (w : World) :=
  {| disk := disk w; dirs := dirs w; remote := remote w;
     hashes := hashes w; nhash := nhash w; tempDir := tempDir w;
     tempSeed := tempSeed w; script := l; trace := trace w |}.

Definition withTrace (l : list Event) (w : World) :=
  {| disk := disk w; dirs := dirs w; remote := remote w;
     hashes := hashes w; nhash := nhash w; tempDir := tempDir w;
     tempSeed := tempSeed w; script := script w; trace := l |}.

(** *** The state monad over the world *)
Definition M (A : Type) : Type := World → A * World.

Definition ret {A} (a : A) : M A := fun w => (a, w).

Definition bind {A B} (m : M A) (k : A → M B) : M B :=
  fun w => let '(a, w') := m w in k a w'.

Notation "'let*' x ':=' c 'in' k" := (bind c (fun x => k))
  (at level 100, x pattern, c at next level, right associativity).
Notation "c ;; k" := (bind c (fun _ => k))
  (at level 100, right associativity).

Definition gets {A} (f : World → A) : M A := fun w => (f w, w).

Definition modify (f : World → World) : M unit := fun w => (tt, f w).

Definition emit (e : Event) : M unit :=
  modify (fun w => withTrace (trace w ++ [e]) w).

(** The environment's verdict on the next fallible call. *)
Definition nextFault : M Fault :=
  fun w => (hd NoFault (script w), withScript (tl (script w)) w).

(** [defer]: [cleanup] runs when [body] has returned.  [deferReading] is
    a deferred closure over a local variable: [body] hands over, next to
    its return value, the value the variable holds at the [return]. *)
Definition defer {A} (cleanup : M unit) (body : M A) : M A :=
  let* a := body in cleanup ;; ret a.

Definition deferReading {A V} (cleanup : V → M unit) (body : M (A * V)) : M A :=
  let* (a, v) := body in cleanup v ;; ret a.

(** The events a computation adds to the trace of [w]. *)
Definition calls {A} (m : M A) (w : World) : list Event :=
  drop (List.length (trace w)) (trace (m w).2).

(** *** Streams and hashes *)

(** [md5.New()] *)
Definition md5_New : M Hash :=
  fun w => (nhash w, withHashes (insert (nhash w) "") (S (nhash w)) w).

(** [h.Write(p)] *)
Definition hashWrite (h : Hash) (p : string) : M unit :=
  modify (fun w => withHashes (alter (fun s => s +:+ p) h) (nhash w) w).

(** [h.Sum(nil)] *)
Definition Sum (h : Hash) : M string :=
  gets (fun w => md5sum (default "" (hashes w !! h))).

Definition firstBytes (limit : option nat) (data : string) : string :=
  match limit with
  | Some n => String.substring 0 n data
  | None => data
  end.

(** Read [r] to its end, or [limit] bytes of it: the bytes read and the
    error that ended the read, nil at end of file or at the limit. *)
Fixpoint readFrom (r : Reader) (limit : option nat) : M (string * option error) :=
  match r with
  | Plain rc =>
      ret (firstBytes limit rc.(rcData),
           match limit with Some _ => None | None => rc.(rcFail) end)
  | Tee src h =>
      let* (p, err) := readFrom src limit in
      hashWrite h p ;;
      ret (p, err)
  end.

(** [r.Close()] and [f.Close()] *)
Definition Close (r : ReadCloser) : M unit := emit (EvClose r.(rcName)).

Definition CloseFile (f : File) : M unit := emit (EvClose (Name f)).

(** [bufio.NewReader(r).ReadString(delim)]: the line with its delimiter;
    without a delimiter before the data ends, what was read and the
    error that ended it, [io.EOF] at end of file. *)
Definition ReadString (r : Reader) (delim : ascii) : M (string * option error) :=
  let* (data, err) := readFrom r None in
  match splitAfter delim data with
  | Some line => ret (line, None)
  | None => ret (data, Some (default EOF err))
  end.

(* ===================================================================== *)
(** ** The injected collaborators *)
(* ===================================================================== *)

(** The two interfaces of the package, with the methods [cache.go] calls
    on them. *)
Record httpGetter := {
  Get : string → M (result Response)
}.

Record fileSystem := {
  MkdirAll : string → Z → M (option error);
  TempFile : string → string → M (result File);
  Remove : string → M unit;
  TeeReader : Reader → Hash → Reader;
  Copy : File → Reader → M (Z * option error);
  Rename : string → string → M (option error);
  ReadAll : Reader → M (string * option error);
  Open : string → M (result ReadCloser);
  Stat : string → M (result FileInfo);
  Base : string → string;
  WriteFile : string → string → Z → M (option error)
}.

(** *** The default transport *)
Module CustomGetter.

(** Modelled from the spec: [customGetter.Get], which is missing.
    "Performs an HTTP GET against a URL and returns a readable byte
    stream plus a status code"; a transport failure is an error and no
    response. *)
Definition Get (url : string) : M (result Response) :=
  let* f := nextFault in
  let* served := gets (fun w => remote w !! url) in
  let res :=
    match f, served with
    | Fail reason _, _ => Err (TransportError reason)
    | NoFault, None => Err (TransportError "no such host")
    | NoFault, Some resp => Ok resp
    end in
  emit (EvGet url res) ;;
  ret res.

End CustomGetter.

Definition customGetter : httpGetter := {| Get := CustomGetter.Get |}.

(** *** The default file system *)
Module StandardFS.

(** The implementation of [standardFS] is not part of [cache.go]; each
    method follows its contract in the spec's table of collaborators,
    over the regular files of [disk]. *)

(** Modelled from the spec: [standardFS.Stat], which is missing.
    "Returns size/existence or an error". *)
Definition Stat (name : string) : M (result FileInfo) :=
  let* f := nextFault in
  let* file := gets (fun w => disk w !! name) in
  let res :=
    match f, file with
    | Fail reason _, _ => Err (PathError "stat" name reason)
    | NoFault, None => Err (PathError "stat" name "no such file or directory")
    | NoFault, Some content =>
        Ok {| Size := Z.of_nat (String.length content) |}
    end in
  emit (EvStat name res) ;;
  ret res.

(** Modelled from the spec: [standardFS.MkdirAll], which is missing.
    "Creates directory tree; idempotent if already present". *)
Definition MkdirAll (path : string) (perm : Z) : M (option error) :=
  let* f := nextFault in
  let* file := gets (fun w => disk w !! path) in
  let err :=
    match f, file with
    | Fail reason _, _ => Some (PathError "mkdir" path reason)
    | NoFault, Some _ => Some (PathError "mkdir" path "not a directory")
    | NoFault, None => None
    end in
  (if err is None then modify (withDirs (union {[path]})) else ret tt) ;;
  emit (EvMkdirAll path perm err) ;;
  ret err.

(** Modelled from the spec: the name [standardFS.TempFile] is about to
    try, "implementation-chosen, not a fixed path": in [dir], or in the
    default directory for temporary files when [dir] is empty, [prefix]
    followed by a random suffix. *)
Definition tempName (w : World) (dir prefix : string) : option string :=
  match tempSeed w with
  | suffix :: _ =>
      Some ((if decide (dir = "") then tempDir w else dir)
              +:+ "/" +:+ prefix +:+ suffix)
  | [] => None
  end.

(** Modelled from the spec: [standardFS.TempFile], which is missing.
    "Returns a new writable file with a unique name": the file is created
    empty, and only under a name that is not taken. *)
Definition TempFile (dir prefix : string) : M (result File) :=
  let* f := nextFault in
  let* candidate := gets (fun w => tempName w dir prefix) in
  let* taken :=
    gets (fun w =>
            from_option (fun name => bool_decide (is_Some (disk w !! name)))
              true candidate) in
  let res :=
    match f, candidate with
    | Fail reason _, _ => Err (PathError "open" dir reason)
    | NoFault, None => Err (PathError "open" dir "file exists")
    | NoFault, Some name =>
        if taken then Err (PathError "open" name "file exists")
        else Ok {| Name := name |}
    end in
  (if res is Ok file
   then modify (fun w => withTempSeed (tl (tempSeed w))
                           (withDisk (insert (Name file) "") w))
   else ret tt) ;;
  emit (EvTempFile dir prefix res) ;;
  ret res.

(** Modelled from the spec: [standardFS.Remove], which is missing.
    "Best-effort delete": a failure is logged and not reported. *)
Definition Remove (path : string) : M unit :=
  let* f := nextFault in
  let* file := gets (fun w => disk w !! path) in
  let err :=
    match f, file with
    | Fail reason _, _ => Some (PathError "remove" path reason)
    | NoFault, None =>
        Some (PathError "remove" path "no such file or directory")
    | NoFault, Some _ => None
    end in
  (if err is None then modify (withDisk (delete path)) else ret tt) ;;
  emit (EvRemove path err).

(** Modelled from the spec: [standardFS.TeeReader], which is missing.
    "Wraps a stream so every read also updates a hash accumulator". *)
Definition TeeReader (r : Reader) (w : Hash) : Reader := Tee r w.

(** Modelled from the spec: [standardFS.Copy], which is missing.
    "Streams bytes, returns count and error": the bytes read from [src]
    are appended to the file [dst]; the error is the one that ended the
    read, or the one the write met after [moved] bytes. *)
Definition Copy (dst : File) (src : Reader) : M (Z * option error) :=
  let* f := nextFault in
  let* (data, rerr) :=
    readFrom src (match f with Fail _ moved => Some moved | NoFault => None end) in
  let err :=
    match f with
    | Fail reason _ => Some (PathError "write" (Name dst) reason)
    | NoFault => rerr
    end in
  modify (withDisk (alter (fun old => old +:+ data) (Name dst))) ;;
  emit (EvCopy (Name dst) data err) ;;
  ret (Z.of_nat (String.length data), err).

(** Modelled from the spec: [standardFS.Rename], which is missing.
    "Atomic replace": the new name gets the file and the old name is
    gone, or nothing changes. *)
Definition Rename (oldpath newpath : string) : M (option error) :=
  let* f := nextFault in
  let* file := gets (fun w => disk w !! oldpath) in
  let err :=
    match f, file with
    | Fail reason _, _ => Some (PathError "rename" oldpath reason)
    | NoFault, None =>
        Some (PathError "rename" oldpath "no such file or directory")
    | NoFault, Some _ => None
    end in
  (if file is Some content
   then if err is None
        then modify (withDisk (fun m => <[newpath := content]> (delete oldpath m)))
        else ret tt
   else ret tt) ;;
  emit (EvRename oldpath newpath err) ;;
  ret err.

(** Modelled from the spec: [standardFS.ReadAll], which is missing.
    "read-whole-stream". *)
Definition ReadAll (r : Reader) : M (string * option error) :=
  readFrom r None.

(** Modelled from the spec: [standardFS.Open], which is missing.
    "Returns a readable stream or error". *)
Definition Open (name : string) : M (result ReadCloser) :=
  let* f := nextFault in
  let* file := gets (fun w => disk w !! name) in
  let res :=
    match f, file with
    | Fail reason _, _ => Err (PathError "open" name reason)
    | NoFault, None => Err (PathError "open" name "no such file or directory")
    | NoFault, Some content =>
        Ok {| rcName := name; rcData := content; rcFail := None |}
    end in
  emit (EvOpen name res) ;;
  ret res.

(** Modelled from the spec: [standardFS.Base], which is missing.
    "path-basename", Go's [filepath.Base]. *)
Definition Base (path : string) : string := GoLib.Base path.

(** Modelled from the spec: [standardFS.WriteFile], which is missing.
    "Whole-file write": the file holds [data] afterwards, whatever it
    held. *)
Definition WriteFile (filename data : string) (perm : Z) : M (option error) :=
  let* f := nextFault in
  let err :=
    match f with
    | Fail reason _ => Some (PathError "open" filename reason)
    | NoFault => None
    end in
  (if err is None then modify (withDisk (insert filename data)) else ret tt) ;;
  emit (EvWriteFile filename data perm err) ;;
  ret err.

End StandardFS.

Definition standardFS : fileSystem := {|
  MkdirAll := StandardFS.MkdirAll;
  TempFile := StandardFS.TempFile;
  Remove := StandardFS.Remove;
  TeeReader := StandardFS.TeeReader;
  Copy := StandardFS.Copy;
  Rename := StandardFS.Rename;
  ReadAll := StandardFS.ReadAll;
  Open := StandardFS.Open;
  Stat := StandardFS.Stat;
  Base := StandardFS.Base;
  WriteFile := StandardFS.WriteFile
|}.

(* ===================================================================== *)
(** ** Package [config] *)
(* ===================================================================== *)

(** The paths and URLs that package [config] resolves; [cache.go] only
    calls its accessors, so their values are parameters here. *)
Record Config := {
  CacheDirectory : string;
  CacheState : string;
  AgentTarball : string;
  DesiredImageLocatorFile : string;
  AgentRemoteTarball : string;
  AgentRemoteTarballMD5 : string
}.

(* ===================================================================== *)
(** ** Package [cache] *)
(* ===================================================================== *)

(** [orwPerm = 0700] *)
Definition orwPerm : Z := 448.

(** [os.ModeDir] *)
Definition ModeDir : Z := 2 ^ 31.

(** [http.StatusOK] *)
Definition StatusOK : Z := 200.

(** Downloader is responsible for cache operations relating to
    downloading the agent. *)
Record Downloader := {
  getter : httpGetter;
  fs : fileSystem
}.

(** [NewDownloader] returns a Downloader with default dependencies. *)
Definition NewDownloader : Downloader :=
  {| getter := customGetter; fs := standardFS |}.

Section Cache.

Variable config : Config.

Definition fileNotEmpty (d : Downloader) (filename : string) : M bool :=
  let* r := d.(fs).(Stat) filename in
  match r with
  | Err _ => ret false
  | Ok fileinfo => ret (0 <? fileinfo.(Size))
  end.

(** [IsAgentCached] returns true if there is a cached copy of the Agent
    present and a cache state file is not empty.  The right operand of
    [&&] is evaluated only when the left one is true. *)
Definition IsAgentCached (d : Downloader) : M bool :=
  let* notEmpty := fileNotEmpty d config.(CacheState) in
  if notEmpty then fileNotEmpty d config.(AgentTarball) else ret false.

Definition getPublishedMd5Sum (d : Downloader) : M (string * option error) :=
  let* r := d.(getter).(Get) config.(AgentRemoteTarballMD5) in
  match r with
  | Err err => ret ("", Some err)
  | Ok resp =>
      defer (Close resp.(Body)) (
        let* (body, err) := d.(fs).(ReadAll) resp.(Body) in
        if err is Some _ then ret ("", err)
        else ret (TrimSpace body, None))
  end.

Definition getPublishedTarball (d : Downloader) : M (result ReadCloser) :=
  let* r := d.(getter).(Get) config.(AgentRemoteTarball) in
  match r with
  | Err err => ret (Err err)
  | Ok resp =>
      if decide (resp.(StatusCode) ≠ StatusOK)
      then ret (Err (Errorf ("unexpected response code "
                               +:+ Sprintf_d resp.(StatusCode))))
      else ret (Ok resp.(Body))
  end.

(** [DownloadAgent] downloads a fresh copy of the Agent and performs an
    integrity check on the downloaded image.

    The function has one local variable [err], which the deferred closure
    reads when the function returns.  The three [return] statements
    after the closure is registered hand it over with the value they
    return: [return err] twice, where both are the same, and
    [return d.fs.Rename(...)], which returns the result of the call and
    leaves [err] as the copy set it.  The calls to the logger are left
    out. *)
Definition DownloadAgent (d : Downloader) : M (option error) :=
  let* err := d.(fs).(MkdirAll) config.(CacheDirectory) (Z.lor ModeDir orwPerm) in
  if err is Some _ then ret err else
  let* (publishedMd5Sum, err) := getPublishedMd5Sum d in
  if err is Some _ then ret err else
  let* r := getPublishedTarball d in
  match r with
  | Err err => ret (Some err)
  | Ok publishedTarballReader =>
  defer (Close publishedTarballReader) (
    let* md5hash := md5_New in
    let* r := d.(fs).(TempFile) "" "ecs-agent.tar" in
    match r with
    | Err err => ret (Some err)
    | Ok tempFile =>
    deferReading
      (fun err =>
         if err is Some _ then d.(fs).(Remove) tempFile.(Name) else ret tt) (
    defer (CloseFile tempFile) (
      let teeReader := d.(fs).(TeeReader) publishedTarballReader md5hash in
      let* (_, err) := d.(fs).(Copy) tempFile teeReader in
      if err is Some _ then ret (err, err) else
      let* calculatedMd5Sum := Sum md5hash in
      let calculatedMd5SumString := Sprintf_x calculatedMd5Sum in
      if decide (publishedMd5Sum ≠ calculatedMd5SumString) then
        let err := Some (Errorf ("mismatched md5sum while downloading "
                                   +:+ config.(AgentRemoteTarball))) in
        ret (err, err)
      else
        let* renamed := d.(fs).(Rename) tempFile.(Name) config.(AgentTarball) in
        ret (renamed, err)))
    end)
  end.

(** [LoadCachedAgent] returns an io.ReadCloser of the Agent from the
    cache. *)
Definition LoadCachedAgent (d : Downloader) : M (result ReadCloser) :=
  d.(fs).(Open) config.(AgentTarball).

Definition RecordCachedAgent (d : Downloader) : M (option error) :=
  let data := "1" in
  d.(fs).(WriteFile) config.(CacheState) data orwPerm.

Definition getDesiredImageFile (d : Downloader) : M (string * option error) :=
  let* r := d.(fs).(Open) config.(DesiredImageLocatorFile) in
  match r with
  | Err err => ret ("", Some err)
  | Ok file =>
      defer (Close file) (
        let reader : Reader := file in
        let* (desiredImageString, err) := ReadString reader LF in
        if err is Some _ then ret ("", err)
        else
          let desiredImageFile :=
            TrimSpace (config.(CacheDirectory) +:+ "/"
                         +:+ d.(fs).(Base) desiredImageString) in
          ret (desiredImageFile, None))
  end.

(** [LoadDesiredAgent] returns an io.ReadCloser of the Agent indicated by
    the desiredImageLocatorFile.  The file must contain as its beginning
    the name of the file containing the desired image (interpreted as a
    basename) and ending in a newline.  Only the first line is read. *)
Definition LoadDesiredAgent (d : Downloader) : M (result ReadCloser) :=
  let* (desiredImageFile, err) := getDesiredImageFile d in
  match err with
  | Some err => ret (Err err)
  | None => d.(fs).(Open) desiredImageFile
  end.

End Cache.

(* ===================================================================== *)
(** ** The runs of [DownloadAgent] with the default collaborators *)
(* ===================================================================== *)

(** The paths whose content a call may have changed. *)
Definition mutated (ev : Event) : list string :=
  match ev with
  | EvTempFile _ _ (Ok file) => [Name file]
  | EvCopy dst _ _ => [dst]
  | EvRename oldpath newpath _ => [oldpath; newpath]
  | EvRemove path _ => [path]
  | EvWriteFile path _ _ _ => [path]
  | _ => []
  end.

(** A computation logs its changes when the files that none of its events
    names are as they were. *)
Definition logsItsChanges {A} (m : M A) : Prop :=
  ∀ (w : World) (p : string),
    (∀ ev, ev ∈ calls m w → p ∉ mutated ev) →
    disk (m w).2 !! p = disk w !! p.

(** What [Remove] leaves of the disk [m], by the error it logged. *)
Definition afterRemove (err : option error) (path : string)
    (m : gmap string string) : gmap string string :=
  if err is None then delete path m else m.

(** What [Rename] leaves of the disk [m], by the error it logged. *)
Definition afterRename (err : option error) (oldpath newpath content : string)
    (m : gmap string string) : gmap string string :=
  if err is None then <[newpath := content]> (delete oldpath m) else m.

Section Runs.

Variable config : Config.
Variable w : World.

(** The calls of a run up to the creation of the temporary file [tmp],
    when all of them succeed. *)
Definition fetching (sumResp tarResp : Response) (tmp : string) : list Event :=
  [ EvMkdirAll config.(CacheDirectory) (Z.lor ModeDir orwPerm) None;
    EvGet config.(AgentRemoteTarballMD5) (Ok sumResp);
    EvClose sumResp.(Body).(rcName);
    EvGet config.(AgentRemoteTarball) (Ok tarResp);
    EvTempFile "" "ecs-agent.tar" (Ok {| Name := tmp |}) ].

(** What the world was like for them to succeed. *)
Record Fetched (sumResp tarResp : Response) (tmp : string) : Prop := {
  fetched_sum : remote w !! config.(AgentRemoteTarballMD5) = Some sumResp;
  fetched_sum_read : sumResp.(Body).(rcFail) = None;
  fetched_tar : remote w !! config.(AgentRemoteTarball) = Some tarResp;
  fetched_tar_status : tarResp.(StatusCode) = StatusOK;
  fetched_tmp : StandardFS.tempName w "" "ecs-agent.tar" = Some tmp;
  fetched_tmp_new : disk w !! tmp = None
}.

(** The runs, by the place where the function returns: the value
    returned, the calls made, and the disk left behind. *)
Inductive Run : option error → list Event → gmap string string → Prop :=
| RunEarly err evs :
    (* a return before the temporary file exists *)
    Forall (fun ev => mutated ev = []) evs →
    Run (Some err) evs (disk w)
| RunCopyFailed sumResp tarResp tmp data err removal :
    Fetched sumResp tarResp tmp →
    Run (Some err)
      (fetching sumResp tarResp tmp
         ++ [ EvCopy tmp data (Some err);
              EvClose tmp;
              EvRemove tmp removal;
              EvClose tarResp.(Body).(rcName) ])
      (afterRemove removal tmp (<[tmp := data]> (disk w)))
| RunMismatch sumResp tarResp tmp removal :
    Fetched sumResp tarResp tmp →
    tarResp.(Body).(rcFail) = None →
    TrimSpace sumResp.(Body).(rcData)
      ≠ Sprintf_x (md5sum tarResp.(Body).(rcData)) →
    Run (Some (Errorf ("mismatched md5sum while downloading "
                         +:+ config.(AgentRemoteTarball))))
      (fetching sumResp tarResp tmp
         ++ [ EvCopy tmp tarResp.(Body).(rcData) None;
              EvClose tmp;
              EvRemove tmp removal;
              EvClose tarResp.(Body).(rcName) ])
      (afterRemove removal tmp (<[tmp := tarResp.(Body).(rcData)]> (disk w)))
| RunRenamed sumResp tarResp tmp renamed :
    Fetched sumResp tarResp tmp →
    tarResp.(Body).(rcFail) = None →
    TrimSpace sumResp.(Body).(rcData)
      = Sprintf_x (md5sum tarResp.(Body).(rcData)) →
    (∀ msg, renamed ≠ Some (Errorf msg)) →
    Run renamed
      (fetching sumResp tarResp tmp
         ++ [ EvCopy tmp tarResp.(Body).(rcData) None;
              EvRename tmp config.(AgentTarball) renamed;
              EvClose tmp;
              EvClose tarResp.(Body).(rcName) ])
      (afterRename renamed tmp config.(AgentTarball) tarResp.(Body).(rcData)
         (<[tmp := tarResp.(Body).(rcData)]> (disk w))).

End Runs.

(* ===================================================================== *)
(** ** Worlds that differ in one place, and a concrete host *)
(* ===================================================================== *)

Definition withRemote (f : gmap string Response → gmap string Response)
    (w : World) :=
  {| disk := disk w; dirs := dirs w; remote := f (remote w);
     hashes := hashes w; nhash := nhash w; tempDir := tempDir w;
     tempSeed := tempSeed w; script := script w; trace := trace w |}.

(** The same response under another status code. *)
Definition withStatus (code : Z) (resp : Response) : Response :=
  {| StatusCode := code; Body := resp.(Body) |}.

(** The world in which the server answers [url] with the status [code]
    and the body it had. *)
Definition answering (url : string) (code : Z) (w : World) : World :=
  withRemote (alter (withStatus code) url) w.

Module Host.

Definition config : Config := {|
  CacheDirectory := "/var/cache/ecs";
  CacheState := "/var/cache/ecs/state";
  AgentTarball := "/var/cache/ecs/ecs-agent.tar";
  DesiredImageLocatorFile := "/var/cache/ecs/desired-image";
  AgentRemoteTarball := "https://ecs.example/ecs-agent-latest.tar";
  AgentRemoteTarballMD5 := "https://ecs.example/ecs-agent-latest.tar.md5"
|}.

Definition serve (url : string) (code : Z) (body : string) : Response :=
  {| StatusCode := code;
     Body := {| rcName := url; rcData := body; rcFail := None |} |}.

(** A server that publishes [tarball] under the checksum text [sum], a
    disk with the files [files], and the faults [faults] to come. *)
Definition world (sumCode : Z) (sum : string) (tarCode : Z) (tarball : string)
    (files : gmap string string) (faults : list Fault) : World := {|
  disk := files;
  dirs := ∅;
  remote :=
    {[ config.(AgentRemoteTarballMD5) :=
         serve config.(AgentRemoteTarballMD5) sumCode sum;
       config.(AgentRemoteTarball) :=
         serve config.(AgentRemoteTarball) tarCode tarball ]};
  hashes := ∅;
  nhash := 0%nat;
  tempDir := "/tmp";
  tempSeed := ["272958469"];
  script := faults;
  trace := []
|}.

Definition tmp : string := "/tmp/ecs-agent.tar272958469".

(** The server publishes the tarball "abc" under its checksum, the cache
    is empty, and the sixth fallible call, the rename, fails. *)
Definition renameFails : World :=
  world 200 ("900150983cd24fb0d6963f7d28e17f72" +:+ String LF "") 200 "abc" ∅
    [NoFault; NoFault; NoFault; NoFault; NoFault; Fail "permission denied" 0].

(** The server publishes an empty tarball under its checksum written in
    upper case. *)
Definition upperCase : World :=
  world 200 ("D41D8CD98F00B204E9800998ECF8427E" +:+ String LF "") 200 "" ∅ [].

(** The server publishes the tarball "abc" under its checksum; the cache
    holds an older agent. *)
Definition published : World :=
  world 200 ("900150983cd24fb0d6963f7d28e17f72" +:+ String LF "") 200 "abc"
    {[ config.(AgentTarball) := "old agent" ]} [].

(** The server publishes the tarball "abc" under the checksum of another
    content; the cache holds an older agent. *)
Definition mismatched : World :=
  world 200 ("d41d8cd98f00b204e9800998ecf8427e" +:+ String LF "") 200 "abc"
    {[ config.(AgentTarball) := "old agent" ]} [].

(** The server publishes the tarball "abc" under its checksum, and the
    fifth fallible call, the copy, fails after two bytes. *)
Definition copyFails : World :=
  world 200 ("900150983cd24fb0d6963f7d28e17f72" +:+ String LF "") 200 "abc" ∅
    [NoFault; NoFault; NoFault; NoFault; Fail "no space left on device" 2].

(** The server has the checksum and answers 404 for the tarball. *)
Definition notFound : World :=
  world 200 ("900150983cd24fb0d6963f7d28e17f72" +:+ String LF "")
    404 "404 page not found" ∅ [].

(** A cache directory with a staged image and the locator file. *)
Definition located (content : string) : World :=
  world 200 "" 200 ""
    {[ config.(DesiredImageLocatorFile) := content;
       "/var/cache/ecs/foo.tar" := "staged image" ]} [].

End Host.

(* ===================================================================== *)
(** * Proofs *)
(* ===================================================================== *)

(** ** The Go library *)

(** The test suite of RFC 1321, section A.5. *)
Example md5_empty : Sprintf_x (md5sum "") = "d41d8cd98f00b204e9800998ecf8427e".
Proof. vm_compute. reflexivity. Qed.

Example md5_a : Sprintf_x (md5sum "a") = "0cc175b9c0f1b6a831c399e269772661".
Proof. vm_compute. reflexivity. Qed.

Example md5_abc : Sprintf_x (md5sum "abc") = "900150983cd24fb0d6963f7d28e17f72".
Proof. vm_compute. reflexivity. Qed.

Example md5_message_digest :
  Sprintf_x (md5sum "message digest") = "f96b697d7cb7938d525a2f31aaf161d0".
Proof. vm_compute. reflexivity. Qed.

Example md5_two_blocks :
  Sprintf_x (md5sum
    "12345678901234567890123456789012345678901234567890123456789012345678901234567890")
  = "57edf4a22be3c955ac49da2e2107b67a".
Proof. vm_compute. reflexivity. Qed.


(** [%x] renders in lower case. *)
Lemma hexDigit_lower (c : ascii) :
  isLowerHex (hexDigit (code c / 16)) = true
  ∧ isLowerHex (hexDigit (code c mod 16)) = true.
Proof.
  destruct c as [b0 b1 b2 b3 b4 b5 b6 b7].
  destruct b0, b1, b2, b3, b4, b5, b6, b7; split; reflexivity.
Qed.

Lemma Sprintf_x_lower (b : string) : allLowerHex (Sprintf_x b) = true.
Proof.
  induction b as [|c b IH]; [reflexivity|].
  destruct (hexDigit_lower c) as [Hhi Hlo].
  cbn [Sprintf_x allLowerHex]. by rewrite Hhi, Hlo, IH.
Qed.

(** The two equations of string append, which [simpl] is told to leave
    alone. *)
Lemma append_empty (s : string) : "" +:+ s = s.
Proof. reflexivity. Qed.

Lemma append_String (c : ascii) (s t : string) :
  String c s +:+ t = String c (s +:+ t).
Proof. reflexivity. Qed.

(** [ReadString] stops after the first delimiter, and finds none where
    there is none. *)
Lemma splitAfter_first_line (c : ascii) (line rest : string) :
  hasByte c line = false →
  splitAfter c (line +:+ String c rest) = Some (line +:+ String c "").
Proof.
  induction line as [|c' line IH];
    rewrite ?append_empty, ?append_String; cbn [hasByte splitAfter].
  - intros _. by rewrite Ascii.eqb_refl.
  - intros [Hc' Hline]%orb_false_iff. rewrite Hc'.
    by rewrite (IH Hline).
Qed.

Lemma splitAfter_no_delimiter (c : ascii) (data : string) :
  hasByte c data = false → splitAfter c data = None.
Proof.
  induction data as [|c' data IH]; cbn [hasByte splitAfter]; [done|].
  intros [Hc' Hdata]%orb_false_iff. rewrite Hc'. by rewrite (IH Hdata).
Qed.

(** [Base] of a line that ends in a line feed: the bytes after its last
    separator, line feed included, and so free of separators. *)
Lemma rev_app_append (s1 s2 acc : string) :
  String.rev_app (s1 +:+ s2) acc = String.rev_app s2 (String.rev_app s1 acc).
Proof.
  revert acc. induction s1 as [|c s1 IH]; intros acc; [done|].
  rewrite append_String. cbn [String.rev_app]. apply IH.
Qed.

Lemma hasByte_rev_app (c : ascii) (s acc : string) :
  hasByte c (String.rev_app s acc) = hasByte c s || hasByte c acc.
Proof.
  revert acc. induction s as [|c' s IH]; intros acc; [done|].
  cbn [String.rev_app hasByte]. rewrite IH. cbn [hasByte].
  by destruct (Ascii.eqb c' c), (hasByte c s), (hasByte c acc).
Qed.

Lemma rev_app_not_empty (s : string) (c : ascii) (acc : string) :
  String.rev_app s (String c acc) ≠ "".
Proof.
  revert c acc. induction s as [|c' s IH]; intros c acc; [done|].
  cbn [String.rev_app]. apply IH.
Qed.

Lemma lastElement_no_separator (r : string) :
  hasByte "/" (lastElement r) = false.
Proof.
  induction r as [|c r IH]; [done|].
  cbn [lastElement]. unfold IsPathSeparator.
  destruct (Ascii.eqb c "/") eqn:Hc; [done|].
  cbn [hasByte]. by rewrite Hc, IH.
Qed.

Lemma rev_line (line : string) (c : ascii) :
  String.rev (line +:+ String c "") = String c (String.rev line).
Proof. unfold String.rev. by rewrite rev_app_append. Qed.

Lemma Base_line (line : string) :
  hasByte "/" (GoLib.Base (line +:+ String LF "")) = false.
Proof.
  unfold GoLib.Base. case_decide as Hempty; [by destruct line|].
  assert (Hdrop : ∀ r, dropSeparators (String LF r) = String LF r)
    by reflexivity.
  assert (Hlast : ∀ r, lastElement (String LF r) = String LF (lastElement r))
    by reflexivity.
  rewrite rev_line, Hdrop, Hlast.
  unfold String.rev. cbn [String.rev_app].
  case_decide as Hbase; [by apply rev_app_not_empty in Hbase|].
  rewrite hasByte_rev_app, lastElement_no_separator. reflexivity.
Qed.

(* ===================================================================== *)
(** ** Symbolic execution *)
(* ===================================================================== *)

(** The events of a computation, from the trace it leaves. *)
Lemma calls_spec {A} (m : M A) (w : World) (evs : list Event) :
  trace (m w).2 = trace w ++ evs → calls m w = evs.
Proof. unfold calls. intros ->. apply drop_app_length. Qed.

(** Unfold the monad and the collaborators, down to the tests on the
    world that decide the run. *)
Ltac unfold_run :=
  cbv [DownloadAgent getPublishedMd5Sum getPublishedTarball IsAgentCached
       fileNotEmpty RecordCachedAgent LoadCachedAgent LoadDesiredAgent
       getDesiredImageFile NewDownloader ReadString
       customGetter standardFS fs getter Get MkdirAll TempFile Remove
       TeeReader Copy Rename ReadAll Open Stat WriteFile Base
       CustomGetter.Get StandardFS.MkdirAll StandardFS.TempFile
       StandardFS.Remove StandardFS.TeeReader StandardFS.Copy
       StandardFS.Rename StandardFS.ReadAll StandardFS.Open StandardFS.Stat
       StandardFS.WriteFile StandardFS.Base StandardFS.tempName
       bind ret gets modify emit nextFault defer deferReading Close
       CloseFile md5_New hashWrite Sum readFrom] in *.

Ltac simpl_world :=
  cbn [fst snd disk dirs remote hashes nhash tempDir tempSeed script trace
       Name Body StatusCode Size rcName rcData rcFail
       withDisk withDirs withHashes withTempSeed withScript withTrace
       withRemote withStatus from_option default firstBytes hd tl] in *;
  rewrite ?alter_insert_eq, ?lookup_insert_eq, ?append_empty in *;
  cbn [from_option default] in *.

(** Decide the outermost test whose subject has no test inside. *)
Ltac step_run :=
  match goal with
  | |- context [match ?x with _ => _ end] =>
      lazymatch x with
      | context [match _ with _ => _ end] => fail
      | _ => destruct x eqn:?; simpl_world
      end
  | |- context [bool_decide ?P] =>
      destruct (bool_decide_reflect P); simpl_world
  end.

(** Every run of [DownloadAgent] is one of [Run]. *)
Lemma DownloadAgent_Run config w r w' :
  DownloadAgent config NewDownloader w = (r, w') →
  Run config w r (calls (DownloadAgent config NewDownloader) w) (disk w').
Proof.
  intros Hrun. unfold calls. rewrite Hrun. cbn [snd]. revert Hrun.
  unfold_run; simpl_world.
  repeat step_run.
  all: intros [= <- <-]; simpl_world.
  all: rewrite <- ?app_assoc, drop_app_length; cbn [app].
  all: try (apply RunEarly; repeat constructor).
  all: try congruence.
  all: simplify_eq.
  all: match goal with
       | Hs : tempSeed _ = _, Hb : bool_decide _ = false |- _ =>
           apply bool_decide_eq_false in Hb; rewrite <- eq_None_not_Some in Hb
       end.
  all: first [ eapply RunCopyFailed | eapply RunMismatch | eapply RunRenamed ].
  all: try (split; cbn [fetching]; try done).
  all: try done.
  all: try (by apply dec_stable).
  all: try (unfold StandardFS.tempName;
            match goal with Hs : tempSeed _ = _ |- _ => by rewrite Hs end).
Qed.

(* ===================================================================== *)
(** ** The trace accounts for the disk *)
(* ===================================================================== *)

Ltac frame_case :=
  match goal with
  | H : ∀ ev, ev ∈ [?e] → _ |- _ =>
      specialize (H e (list_elem_of_here _ _)); cbn [mutated Name] in H;
      rewrite ?not_elem_of_cons in H
  end;
  rewrite ?lookup_insert_ne, ?lookup_delete_ne, ?lookup_alter_ne
    by (intros Heq; subst; intuition congruence);
  try done.

Ltac frame :=
  intros w p; unfold calls; unfold_run; simpl_world;
  repeat step_run; rewrite ?drop_app_length; intros Hev;
  try done; frame_case.

(** The default collaborators change the disk only at the paths named by
    the events they log: the files that no event of a trace names are as
    they were. *)
Lemma default_collaborators_log_their_changes :
  (∀ url, logsItsChanges (CustomGetter.Get url))
  ∧ (∀ name, logsItsChanges (StandardFS.Stat name))
  ∧ (∀ path perm, logsItsChanges (StandardFS.MkdirAll path perm))
  ∧ (∀ dir prefix, logsItsChanges (StandardFS.TempFile dir prefix))
  ∧ (∀ path, logsItsChanges (StandardFS.Remove path))
  ∧ (∀ dst src h, logsItsChanges (StandardFS.Copy dst (Tee (Plain src) h)))
  ∧ (∀ oldpath newpath, logsItsChanges (StandardFS.Rename oldpath newpath))
  ∧ (∀ name, logsItsChanges (StandardFS.Open name))
  ∧ (∀ filename data perm,
       logsItsChanges (StandardFS.WriteFile filename data perm)).
Proof.
  split_and!; intros; frame.
Qed.

(* ===================================================================== *)
(** ** The cache presence check *)
(* ===================================================================== *)

Lemma fileNotEmpty_true (d : Downloader) (path : string) (w : World) :
  (fileNotEmpty d path w).1 = true ↔
  ∃ info, (d.(fs).(Stat) path w).1 = Ok info ∧ 0 < info.(Size).
Proof.
  unfold fileNotEmpty, bind, ret.
  destruct (d.(fs).(Stat) path w) as [[info|err] w1]; cbn [fst].
  - rewrite Z.ltb_lt. split; [by eauto|]. by intros (? & [= <-] & ?).
  - split; [done|]. by intros (? & [=] & _).
Qed.

(** C4: [IsAgentCached] returns true if and only if [Stat] succeeds on the
    Cache State Marker and then on the Agent Tarball, each time with a
    size above zero: a [Stat] that fails makes the check of its path
    false, and the result is the conjunction of the two checks.  This
    holds for every file system.  With the default one and no fault
    injected, a check is true exactly when the file is on disk and not
    empty, so the result is true in one of the sixteen combinations of
    present or absent and empty or not. *)
Theorem IsAgentCached_iff_both_not_empty (config : Config) (d : Downloader)
    (w : World) :
  ((IsAgentCached config d w).1 = true ↔
     ∃ marker w1 tarball w2,
       d.(fs).(Stat) config.(CacheState) w = (Ok marker, w1)
       ∧ 0 < marker.(Size)
       ∧ d.(fs).(Stat) config.(AgentTarball) w1 = (Ok tarball, w2)
       ∧ 0 < tarball.(Size))
  ∧ (∀ err w1, d.(fs).(Stat) config.(CacheState) w = (Err err, w1) →
       (IsAgentCached config d w).1 = false)
  ∧ (∀ marker w1 err w2,
       d.(fs).(Stat) config.(CacheState) w = (Ok marker, w1) →
       d.(fs).(Stat) config.(AgentTarball) w1 = (Err err, w2) →
       (IsAgentCached config d w).1 = false)
  ∧ (script w = [] →
       ((IsAgentCached config NewDownloader w).1 = true ↔
          (∃ marker, disk w !! config.(CacheState) = Some marker ∧ marker ≠ "")
          ∧ (∃ tarball,
               disk w !! config.(AgentTarball) = Some tarball ∧ tarball ≠ ""))).
Proof.
  split_and!.
  - unfold IsAgentCached, fileNotEmpty, bind, ret.
    destruct (d.(fs).(Stat) config.(CacheState) w) as [[marker|err] w1]
      eqn:Hmarker; cbn [fst].
    2:{ split; [done|]. by intros (? & ? & ? & ? & [=] & _). }
    destruct (0 <? marker.(Size)) eqn:Hsize.
    + apply Z.ltb_lt in Hsize.
      destruct (d.(fs).(Stat) config.(AgentTarball) w1) as [[tarball|err] w2]
        eqn:Htarball; cbn [fst].
      * rewrite Z.ltb_lt. split; [by eauto 10|].
        intros (? & ? & ? & ? & [= <- <-] & _ & Htarball' & ?).
        rewrite Htarball in Htarball'. by simplify_eq.
      * split; [done|].
        intros (? & ? & ? & ? & [= <- <-] & _ & Htarball' & ?).
        rewrite Htarball in Htarball'. by simplify_eq.
    + apply Z.ltb_ge in Hsize. cbn [fst].
      split; [done|]. intros (? & ? & ? & ? & [= <- <-] & ? & _). lia.
  - intros err w1 Hstat. unfold IsAgentCached, fileNotEmpty, bind, ret.
    by rewrite Hstat.
  - intros marker w1 err w2 Hmarker Htarball.
    unfold IsAgentCached, fileNotEmpty, bind, ret. rewrite Hmarker.
    destruct (0 <? marker.(Size)); [|done]. by rewrite Htarball.
  - intros Hscript. unfold_run; simpl_world. rewrite Hscript. simpl_world.
    assert (Hlen : ∀ s : string,
      (0 <? Z.of_nat (String.length s)) = true ↔ s ≠ "").
    { intros [|c s]; cbn [String.length]; [by split|].
      rewrite Z.ltb_lt. split; [done|lia]. }
    destruct (disk w !! config.(CacheState)) as [marker|]; simpl_world.
    2:{ split; [done|]. by intros [(? & [=] & _) _]. }
    destruct (0 <? Z.of_nat (String.length marker)) eqn:Hmarker; simpl_world.
    + apply Hlen in Hmarker.
      destruct (disk w !! config.(AgentTarball)) as [tarball|]; simpl_world.
      * rewrite Hlen. split; [by eauto 10|]. by intros [_ (? & [= <-] & ?)].
      * split; [done|]. by intros [_ (? & [=] & _)].
    + cbn [fst]. split; [done|]. intros [(m & [= <-] & Hm) _].
      apply Hlen in Hm. congruence.
Qed.

(* ===================================================================== *)
(** ** Fetching the checksum and the tarball *)
(* ===================================================================== *)

(** With any collaborators: when the GET of the checksum URL gives a
    response and its body is read to the end, the expected checksum is
    the trimmed body.  The status code of the response plays no part. *)
Lemma getPublishedMd5Sum_ok (config : Config) (d : Downloader) (w : World)
    (resp : Response) (w1 : World) (body : string) (w2 : World) :
  d.(getter).(Get) config.(AgentRemoteTarballMD5) w = (Ok resp, w1) →
  d.(fs).(ReadAll) resp.(Body) w1 = ((body, None), w2) →
  getPublishedMd5Sum config d w
  = ((TrimSpace body, None), (Close resp.(Body) w2).2).
Proof.
  intros Hget Hread. unfold getPublishedMd5Sum, defer, bind, ret.
  by rewrite Hget, Hread.
Qed.

(** With any collaborators: a response to the GET of the tarball URL
    whose status is not 200 ends [DownloadAgent] on the spot, in the
    world the GET left. *)
Lemma DownloadAgent_bad_status (config : Config) (d : Downloader)
    (w w1 : World) (sum : string) (w2 : World) (resp : Response) (w3 : World) :
  d.(fs).(MkdirAll) config.(CacheDirectory) (Z.lor ModeDir orwPerm) w
  = (None, w1) →
  getPublishedMd5Sum config d w1 = ((sum, None), w2) →
  d.(getter).(Get) config.(AgentRemoteTarball) w2 = (Ok resp, w3) →
  resp.(StatusCode) ≠ StatusOK →
  DownloadAgent config d w
  = (Some (Errorf ("unexpected response code "
                     +:+ Sprintf_d resp.(StatusCode))), w3).
Proof.
  intros Hmkdir Hsum Hget Hstatus.
  unfold DownloadAgent, getPublishedTarball, bind, ret.
  rewrite Hmkdir, Hsum, Hget. by rewrite decide_True.
Qed.

(** The default collaborators leave the disk alone until the temporary
    file is made. *)
Lemma MkdirAll_disk (path : string) (perm : Z) (w : World) :
  disk (StandardFS.MkdirAll path perm w).2 = disk w.
Proof. unfold_run; simpl_world. by repeat step_run. Qed.

Lemma Get_disk (url : string) (w : World) :
  disk (CustomGetter.Get url w).2 = disk w.
Proof. by unfold_run; simpl_world. Qed.

Lemma getPublishedMd5Sum_disk (config : Config) (w : World) :
  disk (getPublishedMd5Sum config NewDownloader w).2 = disk w.
Proof. unfold_run; simpl_world. by repeat step_run. Qed.

(** The calls of a run that ends on the status of the tarball. *)
Lemma getPublishedMd5Sum_mutates_nothing (config : Config) (w : World) :
  ∃ evs, trace (getPublishedMd5Sum config NewDownloader w).2 = trace w ++ evs
         ∧ Forall (fun ev => mutated ev = []) evs.
Proof.
  unfold_run; simpl_world. repeat step_run.
  all: rewrite <- ?app_assoc; eexists; split; [done|]; by repeat constructor.
Qed.

(** C5: when the GET of the tarball URL is answered with a status code
    [N] other than 200, [DownloadAgent] returns the error
    "unexpected response code N", an error of this package and not one
    of the transport; it returns in the world the GET left, so no call
    follows: the disk is as it was before the call and none of the calls
    made has created or changed a file. *)
Theorem DownloadAgent_unexpected_response_code (config : Config)
    (w w1 : World) (sum : string) (w2 : World) (resp : Response) (w3 : World) :
  StandardFS.MkdirAll config.(CacheDirectory) (Z.lor ModeDir orwPerm) w
  = (None, w1) →
  getPublishedMd5Sum config NewDownloader w1 = ((sum, None), w2) →
  CustomGetter.Get config.(AgentRemoteTarball) w2 = (Ok resp, w3) →
  resp.(StatusCode) ≠ 200 →
  DownloadAgent config NewDownloader w
  = (Some (Errorf ("unexpected response code "
                     +:+ Sprintf_d resp.(StatusCode))), w3)
  ∧ (∀ msg, Errorf ("unexpected response code " +:+ Sprintf_d resp.(StatusCode))
            ≠ TransportError msg)
  ∧ disk w3 = disk w
  ∧ Forall (fun ev => mutated ev = [])
      (calls (DownloadAgent config NewDownloader) w).
Proof.
  intros Hmkdir Hsum Hget Hstatus.
  pose proof (DownloadAgent_bad_status config NewDownloader _ _ _ _ _ _
                Hmkdir Hsum Hget Hstatus) as Hrun.
  split_and!; [done|done| |].
  - pose proof (Get_disk config.(AgentRemoteTarball) w2) as H3.
    pose proof (getPublishedMd5Sum_disk config w1) as H2.
    pose proof (MkdirAll_disk config.(CacheDirectory) (Z.lor ModeDir orwPerm) w)
      as H1.
    rewrite Hget in H3. rewrite Hsum in H2. rewrite Hmkdir in H1.
    cbn [snd] in *. congruence.
  - destruct (getPublishedMd5Sum_mutates_nothing config w1) as (evs & Htr & Hevs).
    rewrite Hsum in Htr. cbn [snd] in Htr.
    rewrite (calls_spec _ _
      ([EvMkdirAll config.(CacheDirectory) (Z.lor ModeDir orwPerm) None]
         ++ evs ++ [EvGet config.(AgentRemoteTarball) (Ok resp)])).
    + apply Forall_app; split; [by repeat constructor|].
      apply Forall_app; split; [done|by repeat constructor].
    + rewrite Hrun. cbn [snd].
      revert Hmkdir Hget. unfold_run; simpl_world.
      repeat step_run; intros [= <-]; try done.
      all: intros [= <- <-]; simpl_world.
      all: rewrite Htr; simpl_world; by rewrite <- !app_assoc.
Qed.

(** With the default collaborators and no fault on the request, the
    expected checksum is the trimmed body that the server holds for the
    checksum URL, under whatever status code. *)
Lemma getPublishedMd5Sum_served (config : Config) (w : World) (resp : Response) :
  hd NoFault (script w) = NoFault →
  remote w !! config.(AgentRemoteTarballMD5) = Some resp →
  resp.(Body).(rcFail) = None →
  (getPublishedMd5Sum config NewDownloader w).1
  = (TrimSpace resp.(Body).(rcData), None).
Proof.
  intros Hfault Hresp Hread. unfold_run; simpl_world.
  rewrite Hfault, Hresp; simpl_world. by rewrite Hread.
Qed.

(** A step of two runs side by side, one of them in a world where a
    response was altered. *)
Ltac step_altered :=
  first
    [ rewrite lookup_alter_eq
    | rewrite lookup_alter_ne by done
    | match goal with
      | |- context [_ <$> (?m !! ?k)] =>
          destruct (m !! k) eqn:?;
          cbn [fmap option_fmap option_map]; simpl_world
      end
    | step_run ].

(** C10: the fetch of the published checksum never looks at the status
    code.  Let the server answer the checksum URL with any other status
    code [code] and the same body: [getPublishedMd5Sum] returns the same
    value, which is the whole body, trimmed, whenever the request and the
    read succeed.  That value is what the download is verified against:
    where the checksum URL is not also the tarball URL, [DownloadAgent]
    returns the same value and leaves the same disk. *)
Theorem checksum_status_is_never_inspected (config : Config) (w : World)
    (code : Z) :
  (getPublishedMd5Sum config NewDownloader
     (answering config.(AgentRemoteTarballMD5) code w)).1
  = (getPublishedMd5Sum config NewDownloader w).1
  ∧ (∀ resp,
       hd NoFault (script w) = NoFault →
       remote w !! config.(AgentRemoteTarballMD5) = Some resp →
       resp.(Body).(rcFail) = None →
       (getPublishedMd5Sum config NewDownloader
          (answering config.(AgentRemoteTarballMD5) code w)).1
       = (TrimSpace resp.(Body).(rcData), None))
  ∧ (config.(AgentRemoteTarballMD5) ≠ config.(AgentRemoteTarball) →
       (DownloadAgent config NewDownloader
          (answering config.(AgentRemoteTarballMD5) code w)).1
       = (DownloadAgent config NewDownloader w).1
       ∧ disk (DownloadAgent config NewDownloader
                 (answering config.(AgentRemoteTarballMD5) code w)).2
         = disk (DownloadAgent config NewDownloader w).2).
Proof.
  assert (Hsum : (getPublishedMd5Sum config NewDownloader
                    (answering config.(AgentRemoteTarballMD5) code w)).1
                 = (getPublishedMd5Sum config NewDownloader w).1).
  { unfold answering. unfold_run; simpl_world. by repeat step_altered. }
  split; [done|]. split.
  - intros resp Hfault Hresp Hread. rewrite Hsum.
    by apply getPublishedMd5Sum_served.
  - clear Hsum. intros Hurls. unfold answering. unfold_run; simpl_world.
    repeat step_altered; by split.
Qed.

(* ===================================================================== *)
(** ** Fetch and commit *)
(* ===================================================================== *)

(** Membership in a list that is written out. *)
Ltac elem_cases H :=
  repeat
    match type of H with
    | _ ∈ _ :: _ => apply elem_of_cons in H; destruct H as [H|H]; [try done|]
    | _ ∈ [] => by apply elem_of_nil in H
    end.

(** A run that has made no change to the disk has copied nothing. *)
Lemma no_copy_in_early_run (evs : list Event) (tmp data : string)
    (err : option error) :
  Forall (fun ev => mutated ev = []) evs → EvCopy tmp data err ∉ evs.
Proof.
  intros Hevs Hin. rewrite Forall_forall in Hevs. by apply Hevs in Hin.
Qed.

(** The runs that reach the comparison: the checksum was fetched, the
    whole body of the tarball was copied to the temporary file, and the
    run ends either in the mismatch error, after the removal, or in
    whatever the rename answers. *)
Lemma Run_compared (config : Config) (w : World) (r : option error)
    (evs : list Event) (dk : gmap string string)
    (sumResp : Response) (tmp data : string) :
  Run config w r evs dk →
  EvGet config.(AgentRemoteTarballMD5) (Ok sumResp) ∈ evs →
  EvCopy tmp data None ∈ evs →
  ∃ tarResp,
    Fetched config w sumResp tarResp tmp
    ∧ tarResp.(Body).(rcFail) = None
    ∧ data = tarResp.(Body).(rcData)
    ∧ ((TrimSpace sumResp.(Body).(rcData) ≠ Sprintf_x (md5sum data)
        ∧ r = Some (Errorf ("mismatched md5sum while downloading "
                              +:+ config.(AgentRemoteTarball)))
        ∧ ∃ removal,
            evs = fetching config sumResp tarResp tmp
                    ++ [ EvCopy tmp data None; EvClose tmp;
                         EvRemove tmp removal;
                         EvClose tarResp.(Body).(rcName) ]
            ∧ dk = afterRemove removal tmp (<[tmp := data]> (disk w)))
       ∨ (TrimSpace sumResp.(Body).(rcData) = Sprintf_x (md5sum data)
          ∧ (∀ msg, r ≠ Some (Errorf msg))
          ∧ evs = fetching config sumResp tarResp tmp
                    ++ [ EvCopy tmp data None;
                         EvRename tmp config.(AgentTarball) r;
                         EvClose tmp; EvClose tarResp.(Body).(rcName) ]
          ∧ dk = afterRename r tmp config.(AgentTarball) data
                   (<[tmp := data]> (disk w)))).
Proof.
  intros Hrun Hget Hcopy.
  destruct Hrun as [err evs Hevs
                   |sumResp' tarResp tmp' data' err removal Hfetched
                   |sumResp' tarResp tmp' removal Hfetched Hread Hsum
                   |sumResp' tarResp tmp' renamed Hfetched Hread Hsum Hrenamed].
  - by apply no_copy_in_early_run in Hcopy.
  - unfold fetching in Hcopy. cbn [app] in Hcopy. elem_cases Hcopy.
  - assert (sumResp' = sumResp) as ->.
    { destruct Hfetched as [Hs _ Ht _ _ _].
      unfold fetching in Hget. cbn [app] in Hget. elem_cases Hget.
      - by simplify_eq.
      - simplify_eq. congruence. }
    unfold fetching in Hcopy. cbn [app] in Hcopy. elem_cases Hcopy.
    simplify_eq. exists tarResp. split_and!; [done..|]. left. eauto.
  - assert (sumResp' = sumResp) as ->.
    { destruct Hfetched as [Hs _ Ht _ _ _].
      unfold fetching in Hget. cbn [app] in Hget. elem_cases Hget.
      - by simplify_eq.
      - simplify_eq. congruence. }
    unfold fetching in Hcopy. cbn [app] in Hcopy. elem_cases Hcopy.
    simplify_eq. exists tarResp. split_and!; [done..|]. right. eauto.
Qed.

(** C1: in a run that fetched the checksum and copied the whole download
    [data] to the temporary file [tmp], if the digest of [data] in
    hexadecimal differs from the published checksum, then
    [DownloadAgent] returns the verification error that names the URL of
    the tarball; before it returns it calls [Remove] on the temporary
    file, after which nothing touches the disk, so the temporary file is
    gone unless that removal itself failed; and the Agent Tarball path
    holds what it held before the call, or is still absent. *)
Theorem DownloadAgent_checksum_mismatch (config : Config) (w : World)
    (r : option error) (w' : World) (sumResp : Response) (tmp data : string) :
  DownloadAgent config NewDownloader w = (r, w') →
  EvGet config.(AgentRemoteTarballMD5) (Ok sumResp)
    ∈ calls (DownloadAgent config NewDownloader) w →
  EvCopy tmp data None ∈ calls (DownloadAgent config NewDownloader) w →
  Sprintf_x (md5sum data) ≠ TrimSpace sumResp.(Body).(rcData) →
  tmp ≠ config.(AgentTarball) →
  r = Some (Errorf ("mismatched md5sum while downloading "
                      +:+ config.(AgentRemoteTarball)))
  ∧ (∃ before removal after,
       calls (DownloadAgent config NewDownloader) w
       = before ++ EvRemove tmp removal :: after
       ∧ EvCopy tmp data None ∈ before
       ∧ Forall (fun ev => mutated ev = []) after
       ∧ (removal = None → disk w' !! tmp = None))
  ∧ disk w' !! config.(AgentTarball) = disk w !! config.(AgentTarball).
Proof.
  intros Hrun Hget Hcopy Hsum Htmp.
  apply DownloadAgent_Run in Hrun.
  destruct (Run_compared _ _ _ _ _ _ _ _ Hrun Hget Hcopy)
    as (tarResp & Hfetched & Hread & -> & [Hcase|Hcase]).
  - destruct Hcase as (_ & -> & removal & -> & ->).
    split_and!; [done| |].
    + exists (fetching config sumResp tarResp tmp
                ++ [EvCopy tmp tarResp.(Body).(rcData) None; EvClose tmp]),
        removal, [EvClose tarResp.(Body).(rcName)].
      split_and!.
      * by rewrite <- app_assoc.
      * apply elem_of_app. right. apply elem_of_cons. by left.
      * by repeat constructor.
      * intros ->. cbn [afterRemove]. apply lookup_delete_eq.
    + destruct removal; cbn [afterRemove].
      * by rewrite lookup_insert_ne.
      * by rewrite lookup_delete_ne, lookup_insert_ne.
  - by destruct Hcase as (Heq & _).
Qed.

(** A path is not among the one or two that a call changes; an event is
    in a list that is written out. *)
Ltac untouched :=
  rewrite ?not_elem_of_cons; repeat split; first [congruence | apply not_elem_of_nil].

Ltac listed :=
  repeat first [apply list_elem_of_here | apply list_elem_of_further].

(** C2: in every run of [DownloadAgent] whose temporary file is not named
    as the Agent Tarball, either no call touches the Agent Tarball path, or
    exactly one does: the rename of the temporary file onto it, whose
    answer is what [DownloadAgent] returns, made after the whole download
    was copied to the temporary file and its digest found equal to the
    published checksum.  The bytes are written by [Copy] alone, to the
    temporary file that the run created.  So when [DownloadAgent]
    returns an error the path holds what it held, and when it returns
    nil the path holds the whole body of the tarball response, which
    matches the checksum. *)
Theorem DownloadAgent_commits_by_rename_only (config : Config) (w : World)
    (r : option error) (w' : World) :
  DownloadAgent config NewDownloader w = (r, w') →
  StandardFS.tempName w "" "ecs-agent.tar" ≠ Some config.(AgentTarball) →
  (Forall (fun ev => config.(AgentTarball) ∉ mutated ev)
     (calls (DownloadAgent config NewDownloader) w)
   ∨ ∃ before after sumResp tmp data,
       calls (DownloadAgent config NewDownloader) w
       = before ++ EvRename tmp config.(AgentTarball) r :: after
       ∧ tmp ≠ config.(AgentTarball)
       ∧ Forall (fun ev => config.(AgentTarball) ∉ mutated ev) before
       ∧ Forall (fun ev => config.(AgentTarball) ∉ mutated ev) after
       ∧ EvGet config.(AgentRemoteTarballMD5) (Ok sumResp) ∈ before
       ∧ EvCopy tmp data None ∈ before
       ∧ TrimSpace sumResp.(Body).(rcData) = Sprintf_x (md5sum data))
  ∧ (∀ ev, ev ∈ calls (DownloadAgent config NewDownloader) w →
       match ev with
       | EvCopy dst _ _ =>
           dst ≠ config.(AgentTarball)
           ∧ EvTempFile "" "ecs-agent.tar" (Ok {| Name := dst |})
             ∈ calls (DownloadAgent config NewDownloader) w
       | EvWriteFile _ _ _ _ => False
       | _ => True
       end)
  ∧ (r ≠ None →
       disk w' !! config.(AgentTarball) = disk w !! config.(AgentTarball))
  ∧ (r = None →
       ∃ sumResp tarResp,
         remote w !! config.(AgentRemoteTarballMD5) = Some sumResp
         ∧ remote w !! config.(AgentRemoteTarball) = Some tarResp
         ∧ tarResp.(Body).(rcFail) = None
         ∧ TrimSpace sumResp.(Body).(rcData)
           = Sprintf_x (md5sum tarResp.(Body).(rcData))
         ∧ disk w' !! config.(AgentTarball) = Some tarResp.(Body).(rcData)).
Proof.
  intros Hrun Htmp.
  apply DownloadAgent_Run in Hrun.
  destruct Hrun as [err evs Hevs
                   |sumResp tarResp tmp data err removal Hfetched
                   |sumResp tarResp tmp removal Hfetched Hread Hsum
                   |sumResp tarResp tmp renamed Hfetched Hread Hsum Hrenamed].
  - split_and!; [| |done..].
    + left. eapply Forall_impl; [exact Hevs|].
      intros ev ->. apply not_elem_of_nil.
    + intros ev Hin. rewrite Forall_forall in Hevs. apply Hevs in Hin.
      by destruct ev.
  - assert (tmp ≠ config.(AgentTarball)) as Hne
      by (destruct Hfetched; congruence).
    split_and!; [| |intros _|done].
    + left. unfold fetching. cbn [app].
      repeat constructor; cbn [mutated Name]; untouched.
    + unfold fetching. cbn [app]. intros ev Hin.
      elem_cases Hin; subst ev; try done. split; [done|listed].
    + destruct removal; cbn [afterRemove].
      * by rewrite lookup_insert_ne.
      * by rewrite lookup_delete_ne, lookup_insert_ne.
  - assert (tmp ≠ config.(AgentTarball)) as Hne
      by (destruct Hfetched; congruence).
    split_and!; [| |intros _|done].
    + left. unfold fetching. cbn [app].
      repeat constructor; cbn [mutated Name]; untouched.
    + unfold fetching. cbn [app]. intros ev Hin.
      elem_cases Hin; subst ev; try done. split; [done|listed].
    + destruct removal; cbn [afterRemove].
      * by rewrite lookup_insert_ne.
      * by rewrite lookup_delete_ne, lookup_insert_ne.
  - assert (tmp ≠ config.(AgentTarball)) as Hne
      by (destruct Hfetched; congruence).
    split_and!.
    + right.
      exists (fetching config sumResp tarResp tmp
                ++ [EvCopy tmp tarResp.(Body).(rcData) None]),
        [EvClose tmp; EvClose tarResp.(Body).(rcName)],
        sumResp, tmp, tarResp.(Body).(rcData).
      split_and!; [by rewrite <- app_assoc|done| | | | |done].
      * unfold fetching. cbn [app].
        repeat constructor; cbn [mutated Name]; untouched.
      * repeat constructor; cbn [mutated]; untouched.
      * unfold fetching. cbn [app]. listed.
      * apply elem_of_app. right. listed.
    + unfold fetching. cbn [app]. intros ev Hin.
      elem_cases Hin; subst ev; try done. split; [done|listed].
    + intros Herr. destruct renamed; [|done]. cbn [afterRename].
      by rewrite lookup_insert_ne.
    + intros ->. cbn [afterRename]. destruct Hfetched.
      exists sumResp, tarResp. split_and!; [done..|]. apply lookup_insert_eq.
Qed.

(** X1: once the copy to the temporary file has been tried, the file is
    removed in the runs that end before the rename is tried, which
    return an error, and in no other: a run that tries the rename calls
    [Remove] neither when the rename succeeds nor when it fails, and
    returns what the rename answered. *)
Lemma DownloadAgent_removes_unless_renaming (config : Config) (w : World)
    (r : option error) (w' : World) (tmp data : string) (err : option error) :
  DownloadAgent config NewDownloader w = (r, w') →
  EvCopy tmp data err ∈ calls (DownloadAgent config NewDownloader) w →
  ((∃ removal, EvRemove tmp removal ∈ calls (DownloadAgent config NewDownloader) w)
   ∧ (∀ res, EvRename tmp config.(AgentTarball) res
             ∉ calls (DownloadAgent config NewDownloader) w)
   ∧ r ≠ None)
  ∨ ((∀ removal, EvRemove tmp removal
                 ∉ calls (DownloadAgent config NewDownloader) w)
     ∧ EvRename tmp config.(AgentTarball) r
       ∈ calls (DownloadAgent config NewDownloader) w
     ∧ disk w' = afterRename r tmp config.(AgentTarball) data
                   (<[tmp := data]> (disk w))).
Proof.
  intros Hrun Hcopy.
  apply DownloadAgent_Run in Hrun.
  destruct Hrun as [e evs Hevs
                   |sumResp tarResp tmp' data' e removal Hfetched
                   |sumResp tarResp tmp' removal Hfetched Hread Hsum
                   |sumResp tarResp tmp' renamed Hfetched Hread Hsum Hrenamed].
  - by apply no_copy_in_early_run in Hcopy.
  - unfold fetching in *. cbn [app] in *. elem_cases Hcopy. simplify_eq.
    left. split_and!; [exists removal; listed| |done].
    intros res Hin. elem_cases Hin.
  - unfold fetching in *. cbn [app] in *. elem_cases Hcopy. simplify_eq.
    left. split_and!; [exists removal; listed| |done].
    intros res Hin. elem_cases Hin.
  - unfold fetching in *. cbn [app] in *. elem_cases Hcopy. simplify_eq.
    right. split_and!; [|listed|done].
    intros removal Hin. elem_cases Hin.
Qed.

(** C3, at a run where the rename fails: the server publishes the tarball
    "abc" under its checksum, the copy and the comparison succeed, and the
    rename onto the Agent Tarball path fails.  [DownloadAgent] returns
    the error of the rename, has created the temporary file, calls
    [Remove] on nothing, and leaves the temporary file on disk with the
    download in it. *)
Theorem DownloadAgent_failed_rename_keeps_temp_file :
  (DownloadAgent Host.config NewDownloader Host.renameFails).1
  = Some (PathError "rename" Host.tmp "permission denied")
  ∧ EvTempFile "" "ecs-agent.tar" (Ok {| Name := Host.tmp |})
    ∈ calls (DownloadAgent Host.config NewDownloader) Host.renameFails
  ∧ EvRename Host.tmp Host.config.(AgentTarball)
      (Some (PathError "rename" Host.tmp "permission denied"))
    ∈ calls (DownloadAgent Host.config NewDownloader) Host.renameFails
  ∧ (∀ path removal,
       EvRemove path removal
       ∉ calls (DownloadAgent Host.config NewDownloader) Host.renameFails)
  ∧ disk (DownloadAgent Host.config NewDownloader Host.renameFails).2
      !! Host.tmp = Some "abc".
Proof.
  assert (calls (DownloadAgent Host.config NewDownloader) Host.renameFails
          = [ EvMkdirAll "/var/cache/ecs" (Z.lor ModeDir orwPerm) None;
              EvGet Host.config.(AgentRemoteTarballMD5)
                (Ok (Host.serve Host.config.(AgentRemoteTarballMD5) 200
                       ("900150983cd24fb0d6963f7d28e17f72" +:+ String LF "")));
              EvClose Host.config.(AgentRemoteTarballMD5);
              EvGet Host.config.(AgentRemoteTarball)
                (Ok (Host.serve Host.config.(AgentRemoteTarball) 200 "abc"));
              EvTempFile "" "ecs-agent.tar" (Ok {| Name := Host.tmp |});
              EvCopy Host.tmp "abc" None;
              EvRename Host.tmp Host.config.(AgentTarball)
                (Some (PathError "rename" Host.tmp "permission denied"));
              EvClose Host.tmp;
              EvClose Host.config.(AgentRemoteTarball) ]) as ->
    by (vm_compute; reflexivity).
  split_and!.
  - vm_compute. reflexivity.
  - listed.
  - listed.
  - intros path removal Hin. elem_cases Hin.
  - vm_compute. reflexivity.
Qed.

(** C9: the comparison of the checksums is equality of strings, byte for
    byte.  In every run that fetched the checksum and copied the whole
    download, [DownloadAgent] returns the mismatch error exactly when the
    trimmed body of the checksum response and the digest of the download
    in hexadecimal are different strings, and that rendering of the
    digest has lower-case digits only.  So, for one download: the server
    publishes the empty tarball under the digest of the empty content
    written in upper case, and [DownloadAgent] returns the mismatch
    error. *)
Theorem checksum_comparison_is_case_sensitive :
  (∀ (config : Config) (w : World) (r : option error) (w' : World)
     (sumResp : Response) (tmp data : string),
     DownloadAgent config NewDownloader w = (r, w') →
     EvGet config.(AgentRemoteTarballMD5) (Ok sumResp)
       ∈ calls (DownloadAgent config NewDownloader) w →
     EvCopy tmp data None ∈ calls (DownloadAgent config NewDownloader) w →
     (r = Some (Errorf ("mismatched md5sum while downloading "
                          +:+ config.(AgentRemoteTarball)))
      ↔ TrimSpace sumResp.(Body).(rcData) ≠ Sprintf_x (md5sum data))
     ∧ allLowerHex (Sprintf_x (md5sum data)) = true)
  ∧ (∃ (sumResp : Response) (tmp data : string),
       EvGet Host.config.(AgentRemoteTarballMD5) (Ok sumResp)
         ∈ calls (DownloadAgent Host.config NewDownloader) Host.upperCase
       ∧ EvCopy tmp data None
         ∈ calls (DownloadAgent Host.config NewDownloader) Host.upperCase
       ∧ TrimSpace sumResp.(Body).(rcData) = ToUpper (Sprintf_x (md5sum data))
       ∧ (DownloadAgent Host.config NewDownloader Host.upperCase).1
         = Some (Errorf ("mismatched md5sum while downloading "
                           +:+ Host.config.(AgentRemoteTarball)))).
Proof.
  split.
  - intros config w r w' sumResp tmp data Hrun Hget Hcopy.
    split; [|apply Sprintf_x_lower].
    apply DownloadAgent_Run in Hrun.
    destruct (Run_compared _ _ _ _ _ _ _ _ Hrun Hget Hcopy)
      as (tarResp & _ & _ & _ & [(Hne & -> & _)|(Heq & Hrenamed & _)]).
    + done.
    + split; [|done]. intros ->. exfalso. exact (Hrenamed _ eq_refl).
  - exists (Host.serve Host.config.(AgentRemoteTarballMD5) 200
              ("D41D8CD98F00B204E9800998ECF8427E" +:+ String LF "")),
      Host.tmp, "".
    assert (calls (DownloadAgent Host.config NewDownloader) Host.upperCase
            = [ EvMkdirAll "/var/cache/ecs" (Z.lor ModeDir orwPerm) None;
                EvGet Host.config.(AgentRemoteTarballMD5)
                  (Ok (Host.serve Host.config.(AgentRemoteTarballMD5) 200
                         ("D41D8CD98F00B204E9800998ECF8427E" +:+ String LF "")));
                EvClose Host.config.(AgentRemoteTarballMD5);
                EvGet Host.config.(AgentRemoteTarball)
                  (Ok (Host.serve Host.config.(AgentRemoteTarball) 200 ""));
                EvTempFile "" "ecs-agent.tar" (Ok {| Name := Host.tmp |});
                EvCopy Host.tmp "" None;
                EvClose Host.tmp;
                EvRemove Host.tmp None;
                EvClose Host.config.(AgentRemoteTarball) ]) as ->
      by (vm_compute; reflexivity).
    split_and!; [listed|listed|by vm_compute|by vm_compute].
Qed.

(* ===================================================================== *)
(** ** Retrieval through the locator file *)
(* ===================================================================== *)

(** With any file system: [LoadDesiredAgent] opens what
    [getDesiredImageFile] resolved, and nothing when that failed. *)
Lemma LoadDesiredAgent_opens_resolved (config : Config) (d : Downloader)
    (w : World) :
  LoadDesiredAgent config d w
  = match (getDesiredImageFile config d w).1 with
    | (desiredImageFile, None) =>
        d.(fs).(Open) desiredImageFile (getDesiredImageFile config d w).2
    | (_, Some err) => (Err err, (getDesiredImageFile config d w).2)
    end.
Proof.
  unfold LoadDesiredAgent, bind, ret.
  by destruct (getDesiredImageFile config d w) as [[file [err|]] w1].
Qed.

(** With any file system: a locator file whose content has no line feed
    ends [LoadDesiredAgent] with the error of the read, end of file
    unless the read itself failed, in the world left by closing the
    locator file. *)
Lemma LoadDesiredAgent_no_newline (config : Config) (d : Downloader)
    (w : World) (file : ReadCloser) (w1 : World) :
  d.(fs).(Open) config.(DesiredImageLocatorFile) w = (Ok file, w1) →
  hasByte LF file.(rcData) = false →
  LoadDesiredAgent config d w
  = (Err (default EOF file.(rcFail)), (Close file w1).2).
Proof.
  intros Hopen Hline. rewrite LoadDesiredAgent_opens_resolved.
  unfold getDesiredImageFile, ReadString, defer, bind, ret. rewrite Hopen.
  cbn [readFrom firstBytes ret]. by rewrite (splitAfter_no_delimiter _ _ Hline).
Qed.

(** C6: when the locator file starts with [line], which has no line feed
    in it, followed by a line feed and by anything, the target is the
    first line and nothing of the rest: the basename of the line with
    its line feed, which has no directory part left, appended to the
    Cache Directory and a slash, and trimmed, which takes the line feed
    away; [LoadDesiredAgent] opens that path.  With the Cache Directory
    /var/cache/ecs, the locator lines "foo.tar" and "/etc/foo.tar" both
    resolve to /var/cache/ecs/foo.tar, which is then opened. *)
Theorem LoadDesiredAgent_resolves_first_line (config : Config) (w : World)
    (line rest : string) :
  hd NoFault (script w) = NoFault →
  disk w !! config.(DesiredImageLocatorFile) = Some (line +:+ String LF rest) →
  hasByte LF line = false →
  (getDesiredImageFile config NewDownloader w).1
  = (TrimSpace (config.(CacheDirectory) +:+ "/"
                  +:+ GoLib.Base (line +:+ String LF "")), None)
  ∧ hasByte "/" (GoLib.Base (line +:+ String LF "")) = false
  ∧ LoadDesiredAgent config NewDownloader w
    = StandardFS.Open
        (TrimSpace (config.(CacheDirectory) +:+ "/"
                      +:+ GoLib.Base (line +:+ String LF "")))
        (getDesiredImageFile config NewDownloader w).2
  ∧ (getDesiredImageFile Host.config NewDownloader
       (Host.located ("foo.tar" +:+ String LF ""))).1
    = ("/var/cache/ecs/foo.tar", None)
  ∧ (getDesiredImageFile Host.config NewDownloader
       (Host.located ("/etc/foo.tar" +:+ String LF ""))).1
    = ("/var/cache/ecs/foo.tar", None)
  ∧ (LoadDesiredAgent Host.config NewDownloader
       (Host.located ("/etc/foo.tar" +:+ String LF ""))).1
    = Ok {| rcName := "/var/cache/ecs/foo.tar"; rcData := "staged image";
            rcFail := None |}.
Proof.
  intros Hfault Hfile Hline.
  assert (Hresolved :
    (getDesiredImageFile config NewDownloader w).1
    = (TrimSpace (config.(CacheDirectory) +:+ "/"
                    +:+ GoLib.Base (line +:+ String LF "")), None)).
  { unfold_run; simpl_world. rewrite Hfault, Hfile; simpl_world.
    by rewrite (splitAfter_first_line _ _ _ Hline). }
  split_and!; [done|apply Base_line| |by vm_compute..].
  rewrite LoadDesiredAgent_opens_resolved. by rewrite Hresolved.
Qed.

(** The basename is taken of the line as [ReadString] returns it, with
    its line feed, and the trim comes last: a first line that ends in a
    slash has the line feed alone as its last element, and resolves to
    the Cache Directory and a slash. *)
Example getDesiredImageFile_trailing_slash :
  (getDesiredImageFile Host.config NewDownloader
     (Host.located ("staged/" +:+ String LF ""))).1
  = ("/var/cache/ecs/", None).
Proof. vm_compute. reflexivity. Qed.

(** C7: when the content of the locator file has no line feed in it,
    empty or not, [LoadDesiredAgent] returns an error, which is the end
    of file when the file could be opened; the only file it opens is the
    locator file, which it closes; and the disk is as it was. *)
Theorem LoadDesiredAgent_needs_newline (config : Config) (w : World)
    (content : string) :
  disk w !! config.(DesiredImageLocatorFile) = Some content →
  hasByte LF content = false →
  (∃ err, (LoadDesiredAgent config NewDownloader w).1 = Err err)
  ∧ (hd NoFault (script w) = NoFault →
       (LoadDesiredAgent config NewDownloader w).1 = Err EOF)
  ∧ (∃ res,
       calls (LoadDesiredAgent config NewDownloader) w
       = EvOpen config.(DesiredImageLocatorFile) res
           :: (if res is Ok _
               then [EvClose config.(DesiredImageLocatorFile)] else []))
  ∧ disk (LoadDesiredAgent config NewDownloader w).2 = disk w.
Proof.
  intros Hfile Hline. unfold calls. unfold_run; simpl_world. rewrite Hfile.
  step_run.
  - rewrite (splitAfter_no_delimiter _ _ Hline); simpl_world.
    split_and!; [by eauto|done| |done].
    match goal with |- context [EvOpen _ ?res] => exists res end.
    by rewrite <- app_assoc, drop_app_length.
  - split_and!; [by eauto|done| |done].
    match goal with |- context [EvOpen _ ?res] => exists res end.
    by rewrite drop_app_length.
Qed.

(* ===================================================================== *)
(** ** Recording completion *)
(* ===================================================================== *)

(** C8: [RecordCachedAgent] is one call to [WriteFile], on the Cache State
    Marker path, with the one byte "1" and the permission 0700, which
    has the bits of the owner and no other.  With the default file
    system the call fails only when the environment makes it fail,
    whatever the disk holds; when it succeeds the marker holds exactly
    that byte and the rest of the disk is as it was; and after a call
    that succeeded, another call leaves the disk as the first left it,
    whether it succeeds or not. *)
Theorem RecordCachedAgent_idempotent (config : Config) (w : World) :
  (∀ d : Downloader,
     RecordCachedAgent config d
     = d.(fs).(WriteFile) config.(CacheState) "1" orwPerm)
  ∧ String.length "1" = 1%nat
  ∧ orwPerm = 7 * 8 ^ 2
  ∧ Z.land orwPerm (7 * 8 + 7) = 0
  ∧ calls (RecordCachedAgent config NewDownloader) w
    = [EvWriteFile config.(CacheState) "1" orwPerm
         (RecordCachedAgent config NewDownloader w).1]
  ∧ (RecordCachedAgent config NewDownloader w).1
    = match hd NoFault (script w) with
      | NoFault => None
      | Fail reason _ => Some (PathError "open" config.(CacheState) reason)
      end
  ∧ ((RecordCachedAgent config NewDownloader w).1 = None →
       disk (RecordCachedAgent config NewDownloader w).2
       = <[config.(CacheState) := "1"]> (disk w)
       ∧ disk (RecordCachedAgent config NewDownloader
                 (RecordCachedAgent config NewDownloader w).2).2
         = disk (RecordCachedAgent config NewDownloader w).2).
Proof.
  split_and!; [done..| | |].
  - unfold calls. unfold_run; simpl_world.
    step_run; by rewrite drop_app_length.
  - unfold_run; simpl_world. by step_run.
  - unfold_run; simpl_world. step_run; [|done]. intros _.
    split; [done|]. step_run; [|done]. apply insert_insert_eq.
Qed.

(* ===================================================================== *)
(** ** The theorems at the concrete host *)
(* ===================================================================== *)

(** The tarball "abc" is published under the checksum of the empty
    content: the run ends in the mismatch error, the temporary file is
    gone and the older agent is still in the cache. *)
Lemma DownloadAgent_checksum_mismatch_at_host :
  Sprintf_x (md5sum "abc")
    ≠ TrimSpace ("d41d8cd98f00b204e9800998ecf8427e" +:+ String LF "")
  ∧ Host.tmp ≠ Host.config.(AgentTarball)
  ∧ (DownloadAgent Host.config NewDownloader Host.mismatched).1
    = Some (Errorf ("mismatched md5sum while downloading "
                      +:+ Host.config.(AgentRemoteTarball)))
  ∧ disk (DownloadAgent Host.config NewDownloader Host.mismatched).2
      !! Host.config.(AgentTarball) = Some "old agent".
Proof.
  assert (Hsum : Sprintf_x (md5sum "abc")
                 ≠ TrimSpace ("d41d8cd98f00b204e9800998ecf8427e"
                                +:+ String LF ""))
    by (vm_compute; discriminate).
  assert (Htmp : Host.tmp ≠ Host.config.(AgentTarball)) by discriminate.
  destruct (DownloadAgent_checksum_mismatch Host.config Host.mismatched
              (DownloadAgent Host.config NewDownloader Host.mismatched).1
              (DownloadAgent Host.config NewDownloader Host.mismatched).2
              (Host.serve Host.config.(AgentRemoteTarballMD5) 200
                 ("d41d8cd98f00b204e9800998ecf8427e" +:+ String LF ""))
              Host.tmp "abc") as (Hr & _ & Hdisk).
  - apply surjective_pairing.
  - vm_compute. listed.
  - vm_compute. listed.
  - exact Hsum.
  - exact Htmp.
  - split_and!; [exact Hsum|exact Htmp|exact Hr|].
    rewrite Hdisk. vm_compute. reflexivity.
Defined.

(** The tarball "abc" is published under its checksum: the run returns
    nil and the download has replaced the older agent. *)
Lemma DownloadAgent_commits_by_rename_only_at_host :
  StandardFS.tempName Host.published "" "ecs-agent.tar"
    ≠ Some Host.config.(AgentTarball)
  ∧ (DownloadAgent Host.config NewDownloader Host.published).1 = None
  ∧ disk (DownloadAgent Host.config NewDownloader Host.published).2
      !! Host.config.(AgentTarball) = Some "abc".
Proof.
  assert (Htmp : StandardFS.tempName Host.published "" "ecs-agent.tar"
                 ≠ Some Host.config.(AgentTarball))
    by (vm_compute; discriminate).
  assert (Hnil : (DownloadAgent Host.config NewDownloader Host.published).1
                 = None) by (vm_compute; reflexivity).
  destruct (DownloadAgent_commits_by_rename_only Host.config Host.published
              (DownloadAgent Host.config NewDownloader Host.published).1
              (DownloadAgent Host.config NewDownloader Host.published).2)
    as (_ & _ & _ & Hcommitted).
  - apply surjective_pairing.
  - exact Htmp.
  - split_and!; [exact Htmp|exact Hnil|].
    destruct (Hcommitted Hnil) as (sumResp & tarResp & _ & Htar & _ & _ & ->).
    vm_compute in Htar. by injection Htar as <-.
Defined.

(** The tarball URL answers 404: the run ends in
    "unexpected response code 404" and the disk is as it was. *)
Lemma DownloadAgent_unexpected_response_code_at_host :
  404 ≠ 200
  ∧ (DownloadAgent Host.config NewDownloader Host.notFound).1
    = Some (Errorf "unexpected response code 404")
  ∧ disk (DownloadAgent Host.config NewDownloader Host.notFound).2
    = disk Host.notFound.
Proof.
  assert (Hcode : 404 ≠ 200) by discriminate.
  edestruct (DownloadAgent_unexpected_response_code Host.config Host.notFound)
    as (Hrun & _ & Hdisk & _).
  - vm_compute. reflexivity.
  - vm_compute. reflexivity.
  - vm_compute. reflexivity.
  - exact Hcode.
  - rewrite Hrun. cbn [fst snd]. by rewrite Hdisk.
Defined.

(** The locator file names /etc/foo.tar on its first line and goes on:
    the staged image /var/cache/ecs/foo.tar is opened. *)
Lemma LoadDesiredAgent_resolves_first_line_at_host :
  hasByte LF "/etc/foo.tar" = false
  ∧ (LoadDesiredAgent Host.config NewDownloader
       (Host.located ("/etc/foo.tar" +:+ String LF "reserved"))).1
    = Ok {| rcName := "/var/cache/ecs/foo.tar"; rcData := "staged image";
            rcFail := None |}.
Proof.
  assert (Hline : hasByte LF "/etc/foo.tar" = false) by reflexivity.
  destruct (LoadDesiredAgent_resolves_first_line Host.config
              (Host.located ("/etc/foo.tar" +:+ String LF "reserved"))
              "/etc/foo.tar" "reserved") as (_ & _ & Hopen & _).
  - reflexivity.
  - vm_compute. reflexivity.
  - exact Hline.
  - split; [exact Hline|]. rewrite Hopen. vm_compute. reflexivity.
Defined.

(** The locator file holds "foo.tar" and no line feed: the end of file
    is the error, and the staged image is not opened. *)
Lemma LoadDesiredAgent_needs_newline_at_host :
  hasByte LF "foo.tar" = false
  ∧ (LoadDesiredAgent Host.config NewDownloader (Host.located "foo.tar")).1
    = Err EOF.
Proof.
  assert (Hline : hasByte LF "foo.tar" = false) by reflexivity.
  destruct (LoadDesiredAgent_needs_newline Host.config
              (Host.located "foo.tar") "foo.tar") as (_ & Heof & _).
  - vm_compute. reflexivity.
  - exact Hline.
  - split; [exact Hline|]. by apply Heof.
Defined.

(** The checksum URL answers 404 with the checksum as its body: the run
    still returns nil. *)
Lemma checksum_status_is_never_inspected_at_host :
  Host.config.(AgentRemoteTarballMD5) ≠ Host.config.(AgentRemoteTarball)
  ∧ (getPublishedMd5Sum Host.config NewDownloader
       (answering Host.config.(AgentRemoteTarballMD5) 404 Host.published)).1
    = ("900150983cd24fb0d6963f7d28e17f72", None)
  ∧ (DownloadAgent Host.config NewDownloader
       (answering Host.config.(AgentRemoteTarballMD5) 404 Host.published)).1
    = None.
Proof.
  assert (Hurls : Host.config.(AgentRemoteTarballMD5)
                  ≠ Host.config.(AgentRemoteTarball)) by discriminate.
  destruct (checksum_status_is_never_inspected Host.config Host.published 404)
    as (Hsum & _ & Hrun).
  split_and!; [exact Hurls| |].
  - rewrite Hsum. vm_compute. reflexivity.
  - destruct (Hrun Hurls) as [-> _]. vm_compute. reflexivity.
Defined.

(** The copy fails after two bytes: the run returns the error of the copy
    and the temporary file is removed. *)
Lemma DownloadAgent_removes_unless_renaming_at_host :
  EvCopy Host.tmp "ab"
    (Some (PathError "write" Host.tmp "no space left on device"))
    ∈ calls (DownloadAgent Host.config NewDownloader) Host.copyFails
  ∧ EvRemove Host.tmp None
    ∈ calls (DownloadAgent Host.config NewDownloader) Host.copyFails
  ∧ (∀ res, EvRename Host.tmp Host.config.(AgentTarball) res
            ∉ calls (DownloadAgent Host.config NewDownloader) Host.copyFails)
  ∧ disk (DownloadAgent Host.config NewDownloader Host.copyFails).2 = ∅.
Proof.
  assert (Hcopy :
    EvCopy Host.tmp "ab"
      (Some (PathError "write" Host.tmp "no space left on device"))
      ∈ calls (DownloadAgent Host.config NewDownloader) Host.copyFails)
    by (vm_compute; listed).
  destruct (DownloadAgent_removes_unless_renaming Host.config Host.copyFails
              (DownloadAgent Host.config NewDownloader Host.copyFails).1
              (DownloadAgent Host.config NewDownloader Host.copyFails).2
              Host.tmp "ab"
              (Some (PathError "write" Host.tmp "no space left on device")))
    as [(_ & Hrename & _)|(Hremove & _)].
  - apply surjective_pairing.
  - exact Hcopy.
  - split_and!; [exact Hcopy| |exact Hrename|].
    + vm_compute. listed.
    + vm_compute. reflexivity.
  - exfalso. apply (Hremove None). vm_compute. listed.
Defined.
